(** * weatherapp: the suffix parser, the weather fetcher and the request
    handler of [app.py], embedded as Rocq functions.

    Conventions of the embedding.
    - A Python [str] is a [string]; one [ascii] stands for one code point
      in U+0000..U+00FF (the model covers text in that range, and
      [str.lower] and [str.strip] below follow Unicode on it).
    - A call that can raise returns a [pyresult]: [Ok v] or [Raise e].
    - A Python [dict] is an association list in insertion order.
    - The network ([requests.get]) is a function from the request that is
      sent to its outcome. *)

From Stdlib Require Import ZArith List Bool Ascii String Lia PrimFloat.
Import ListNotations.

Local Open Scope string_scope.

(** ** Python strings *)

Module PyStr.

(** [s[i:]] for [0 <= i]. *)
Fixpoint drop (n : nat) (s : string) : string :=
  match n, s with
  | O, _ => s
  | S _, EmptyString => EmptyString
  | S n', String _ s' => drop n' s'
  end.

(** [s[:i]] for [0 <= i]. *)
Fixpoint take (n : nat) (s : string) : string :=
  match n, s with
  | O, _ => EmptyString
  | S _, EmptyString => EmptyString
  | S n', String c s' => String c (take n' s')
  end.

(** [s[:-k]] for [k > 0]: the stop index [-k] is [len(s) - k], clipped
    at 0 (the subtraction on [nat] clips). *)
Definition slice_to_neg (k : nat) (s : string) : string :=
  take (String.length s - k) s.

(** [s.endswith(suffix)]: false when the suffix is longer than [s],
    otherwise the last [len(suffix)] characters are compared. *)
Definition endswith (s suffix : string) : bool :=
  if Nat.leb (String.length suffix) (String.length s)
  then String.eqb (drop (String.length s - String.length suffix) s) suffix
  else false.

(** [str.lower] on one code point below U+0100: A-Z, and the Latin-1
    capitals U+00C0..U+00DE without the multiplication sign U+00D7,
    move up by 32. *)
Definition lower_char (c : ascii) : ascii :=
  let n := nat_of_ascii c in
  if (Nat.leb 65 n && Nat.leb n 90)
     || (Nat.leb 192 n && Nat.leb n 222 && negb (Nat.eqb n 215))
  then ascii_of_nat (n + 32)
  else c.

Fixpoint lower (s : string) : string :=
  match s with
  | EmptyString => EmptyString
  | String c s' => String (lower_char c) (lower s')
  end.

(** [str.isspace] on one code point below U+0100: TAB..CR, FS..US, the
    space, NEL (U+0085) and the no-break space (U+00A0). *)
Definition is_space (c : ascii) : bool :=
  let n := nat_of_ascii c in
  (Nat.leb 9 n && Nat.leb n 13) || (Nat.leb 28 n && Nat.leb n 32)
  || Nat.eqb n 133 || Nat.eqb n 160.

Fixpoint lstrip (s : string) : string :=
  match s with
  | EmptyString => EmptyString
  | String c s' => if is_space c then lstrip s' else s
  end.

(** Trailing white space goes: a white-space character followed only by
    white space is dropped. *)
Fixpoint rstrip (s : string) : string :=
  match s with
  | EmptyString => EmptyString
  | String c s' =>
      match rstrip s' with
      | EmptyString => if is_space c then EmptyString else String c EmptyString
      | r => String c r
      end
  end.

(** [s.strip()] with no argument. *)
Definition strip (s : string) : string := rstrip (lstrip s).

(** ["+" * n] *)
Fixpoint plusses (n : nat) : string :=
  match n with
  | O => EmptyString
  | S n' => String "+" (plusses n')
  end.

End PyStr.

(** ** The suffix parser *)

(** [split_suffix(string)], lines 87-102. Neither [endswith] nor slicing
    raises on a [str], so the result is a plain pair. *)
Definition split_suffix (s : string) : string * string :=
  if PyStr.endswith s "++" then (PyStr.slice_to_neg 2 s, "++")
  else if PyStr.endswith s "+" then (PyStr.slice_to_neg 1 s, "+")
  else (s, "").

(** The detail levels of the specification; the code carries them as the
    suffix strings themselves. *)
Inductive detailLevel : Set := NONE | PARTIAL | FULL.

Definition suffix_of (l : detailLevel) : string :=
  match l with
  | NONE => ""
  | PARTIAL => "+"
  | FULL => "++"
  end.

(** ** Python values, exceptions and dictionaries *)

(** What [response.json()] can hold, and what the report dictionaries hold. *)
#[warnings="-register-all"]
Inductive pyval : Type :=
| PyNone
| PyBool (b : bool)
| PyInt (n : Z)
| PyFloat (f : float)
| PyStr (s : string)
| PyList (l : list pyval)
| PyDict (d : list (string * pyval)).

Definition pydict : Type := list (string * pyval).

(** The exceptions the modelled calls can raise. [TimestampError] stands
    for what [datetime.fromtimestamp] raises on an instant outside years
    1..9999 ([ValueError], [OverflowError] or [OSError], by magnitude and
    platform). *)
Inductive exn : Set :=
| KeyError
| IndexError
| TypeError
| TimestampError
| JSONDecodeError
| RequestException
| BadRequestKeyError.

Inductive pyresult (A : Type) : Type :=
| Ok (v : A)
| Raise (e : exn).

Arguments Ok {A} v.
Arguments Raise {A} e.

Definition bind {A B : Type} (r : pyresult A) (k : A -> pyresult B) : pyresult B :=
  match r with
  | Ok v => k v
  | Raise e => Raise e
  end.

Notation "x <- r ;; k" := (bind r (fun x => k))
  (at level 61, r at next level, right associativity).

Module Dict.

Section Assoc.
Context {V : Type}.

(** [d.get(key)]: the value stored under [key], if any. *)
Fixpoint get (key : string) (d : list (string * V)) : option V :=
  match d with
  | [] => None
  | (k, v) :: d' => if String.eqb key k then Some v else get key d'
  end.

(** [key in d] *)
Definition mem (key : string) (d : list (string * V)) : bool :=
  match get key d with
  | Some _ => true
  | None => false
  end.

(** [list(d)]: the keys, in insertion order. *)
Definition keys (d : list (string * V)) : list string := map fst d.

(** The dictionary without [key]. *)
Fixpoint remove (key : string) (d : list (string * V)) : list (string * V) :=
  match d with
  | [] => []
  | (k, v) :: d' =>
      if String.eqb key k then remove key d' else (k, v) :: remove key d'
  end.

(** [d.pop(key)]: the value and the dictionary left, or [KeyError]. *)
Definition pop (key : string) (d : list (string * V))
  : pyresult (V * list (string * V)) :=
  match get key d with
  | Some v => Ok (v, remove key d)
  | None => Raise KeyError
  end.
End Assoc.

End Dict.

(** [v[key]] for a [str] key. *)
Definition getitem (v : pyval) (key : string) : pyresult pyval :=
  match v with
  | PyDict d =>
      match Dict.get key d with
      | Some x => Ok x
      | None => Raise KeyError
      end
  | _ => Raise TypeError
  end.

(** [v[0]]. The keys of a dictionary decoded from JSON are strings, so
    [0] is never one of them. *)
Definition getitem0 (v : pyval) : pyresult pyval :=
  match v with
  | PyList (x :: _) => Ok x
  | PyList [] => Raise IndexError
  | PyStr (String c _) => Ok (PyStr (String c EmptyString))
  | PyStr EmptyString => Raise IndexError
  | PyDict _ => Raise KeyError
  | _ => Raise TypeError
  end.

(** ** [datetime]: from epoch seconds to [YYYY-MM-DD HH:MM:SS UTC] *)

Module PyDatetime.

Local Open Scope Z_scope.

Definition DI400Y : Z := 146097.
Definition DI100Y : Z := 36524.
Definition DI4Y : Z := 1461.

(** [_is_leap(year)] *)
Definition is_leap (year : Z) : bool :=
  (year mod 4 =? 0) && (negb (year mod 100 =? 0) || (year mod 400 =? 0)).

(** [_DAYS_IN_MONTH[month]] *)
Definition DAYS_IN_MONTH (month : Z) : Z :=
  nth (Z.to_nat month) [-1; 31; 28; 31; 30; 31; 30; 31; 31; 30; 31; 30; 31] 0.

(** [_DAYS_BEFORE_MONTH[month]] *)
Definition DAYS_BEFORE_MONTH (month : Z) : Z :=
  nth (Z.to_nat month) [-1; 0; 31; 59; 90; 120; 151; 181; 212; 243; 273; 304; 334] 0.

(** [_days_before_year(year)] *)
Definition days_before_year (year : Z) : Z :=
  let y := year - 1 in
  y * 365 + y / 4 - y / 100 + y / 400.

(** [_days_before_month(year, month)] *)
Definition days_before_month (year month : Z) : Z :=
  DAYS_BEFORE_MONTH month + (if (2 <? month) && is_leap year then 1 else 0).

(** [_days_in_month(year, month)] *)
Definition days_in_month (year month : Z) : Z :=
  if (month =? 2) && is_leap year then 29 else DAYS_IN_MONTH month.

(** [_ymd2ord(year, month, day)] *)
Definition ymd2ord (year month day : Z) : Z :=
  days_before_year year + days_before_month year month + day.

(** [_ord2ymd(n)]: the proleptic Gregorian date of the ordinal [n], with
    01-Jan-0001 as day 1. *)
Definition ord2ymd (n : Z) : Z * Z * Z :=
  let n := n - 1 in
  let n400 := n / DI400Y in
  let n := n mod DI400Y in
  let year := n400 * 400 + 1 in
  let n100 := n / DI100Y in
  let n := n mod DI100Y in
  let n4 := n / DI4Y in
  let n := n mod DI4Y in
  let n1 := n / 365 in
  let n := n mod 365 in
  let year := year + (n100 * 100 + n4 * 4 + n1) in
  if (n1 =? 4) || (n100 =? 4) then (year - 1, 12, 31)
  else
    let leapyear := (n1 =? 3) && (negb (n4 =? 24) || (n100 =? 3)) in
    let month := Z.shiftr (n + 50) 5 in
    let preceding :=
      DAYS_BEFORE_MONTH month + (if (2 <? month) && leapyear then 1 else 0) in
    if n <? preceding then
      let month := month - 1 in
      let preceding :=
        preceding
        - (DAYS_IN_MONTH month + (if (month =? 2) && leapyear then 1 else 0)) in
      (year, month, n - preceding + 1)
    else (year, month, n - preceding + 1).

(** The last lines of [_ord2ymd] on their own: the month and the day of
    the [n]-th day of a year, counted from 0. *)
Definition month_day (leapyear : bool) (n : Z) : Z * Z :=
  let month := Z.shiftr (n + 50) 5 in
  let preceding :=
    DAYS_BEFORE_MONTH month + (if (2 <? month) && leapyear then 1 else 0) in
  if n <? preceding then
    let month := month - 1 in
    let preceding :=
      preceding
      - (DAYS_IN_MONTH month + (if (month =? 2) && leapyear then 1 else 0)) in
    (month, n - preceding + 1)
  else (month, n - preceding + 1).

(** The day [n] of a year falls on a date of the calendar, [n] days after
    the first of January. *)
Definition month_day_checks (leapyear : bool) (n : Z) : bool :=
  let '(m, d) := month_day leapyear n in
  (DAYS_BEFORE_MONTH m + (if (2 <? m) && leapyear then 1 else 0) + d =? n + 1)
  && (1 <=? m) && (m <=? 12) && (1 <=? d)
  && (d <=? (if (m =? 2) && leapyear then 29 else DAYS_IN_MONTH m)).

(** [f] holds on the [p] integers from [lo] on. *)
Fixpoint holds_from (f : Z -> bool) (p : positive) (lo : Z) : bool :=
  match p with
  | xH => f lo
  | xO p' => holds_from f p' lo && holds_from f p' (lo + Zpos p')
  | xI p' =>
      f lo && holds_from f p' (lo + 1) && holds_from f p' (lo + 1 + Zpos p')
  end.

(** The ordinal [n] comes back from its date, and the date is one of the
    calendar: the test that is run over one cycle of 400 years below. *)
Definition ord_checks (n : Z) : bool :=
  let '(y, m, d) := ord2ymd n in
  (ymd2ord y m d =? n) && (1 <=? m) && (m <=? 12) && (1 <=? d)
  && (d <=? days_in_month y m).

(** A [datetime] in UTC, to the second. *)
Record datetime : Set := mkDatetime {
  year : Z; month : Z; day : Z; hour : Z; minute : Z; second : Z
}.

(** The ordinal of 01-Jan-1970. *)
Definition EPOCH_ORDINAL : Z := 719163.

(** Epoch seconds of 0001-01-01 00:00:00 and of 9999-12-31 23:59:59. *)
Definition MIN_TIMESTAMP : Z := -62135596800.
Definition MAX_TIMESTAMP : Z := 253402300799.

(** [datetime.fromtimestamp(t, tz=timezone.utc)] for an [int] [t]: the
    broken-down UTC time, for years 1..9999. *)
Definition fromtimestamp_utc (t : Z) : pyresult datetime :=
  if (MIN_TIMESTAMP <=? t) && (t <=? MAX_TIMESTAMP) then
    let days := t / 86400 in
    let rem := t mod 86400 in
    let '(y, m, d) := ord2ymd (days + EPOCH_ORDINAL) in
    Ok (mkDatetime y m d (rem / 3600) (rem mod 3600 / 60) (rem mod 60))
  else Raise TimestampError.

Definition digit (n : Z) : ascii := ascii_of_nat (48 + Z.to_nat (n mod 10)).

(** Two and four decimal digits, zero padded. *)
Definition pad2 (n : Z) : string :=
  String (digit (n / 10)) (String (digit n) EmptyString).

Definition pad4 (n : Z) : string :=
  String (digit (n / 1000)) (String (digit (n / 100)) (pad2 n)).

(** [dt.strftime("%Y-%m-%d %H:%M:%S UTC")]. The year is written with four
    digits (below year 1000 some platforms' [%Y] does not pad). *)
Definition strftime (dt : datetime) : string :=
  (pad4 (year dt) ++ "-" ++ pad2 (month dt) ++ "-" ++ pad2 (day dt) ++ " "
   ++ pad2 (hour dt) ++ ":" ++ pad2 (minute dt) ++ ":" ++ pad2 (second dt)
   ++ " UTC")%string.

End PyDatetime.

(** ** The provider and the web framework *)

(** What [requests.get(url=..., params=...)] sends. *)
Record request : Set := mkRequest {
  url : string;
  params : list (string * string)
}.

(** What the code reads of a [requests.Response]: the status code and
    the outcome of [response.json()]. *)
Record response : Type := mkResponse {
  status_code : Z;
  json : pyresult pyval
}.

(** What the handler reads of [flask.request]. *)
Record flask_request : Set := mkFlaskRequest {
  method : string;
  form : list (string * string)
}.

(** The call [render_template(template, data=..., error=...)]. *)
Record rendered : Type := mkRendered {
  template : string;
  data : pydict;
  error : pyval
}.

(** [request.form[key]]: a missing field raises [BadRequestKeyError]. *)
Definition form_getitem (f : list (string * string)) (key : string)
  : pyresult string :=
  match Dict.get key f with
  | Some v => Ok v
  | None => Raise BadRequestKeyError
  end.

Section App.

(** The module global [api_key]. *)
Variable api_key : string.

(** The network: the outcome of the one GET request, a response or an
    exception of [requests]. *)
Variable requests_get : request -> pyresult response.

(** [datetime.fromtimestamp] on a [float]: the whole second of the
    instant it builds (after its rounding to microseconds), or what it
    raises. Binary floating-point arithmetic is not modelled. *)
Variable float_timestamp : float -> pyresult Z.

(** [datetime.fromtimestamp(v, tz=timezone.utc)
      .strftime("%Y-%m-%d %H:%M:%S UTC")], line 42. A [bool] is an
    [int] in Python. *)
Definition format_timestamp (v : pyval) : pyresult string :=
  t <- match v with
       | PyInt n => Ok n
       | PyBool b => Ok (if b then 1%Z else 0%Z)
       | PyFloat f => float_timestamp f
       | _ => Raise TypeError
       end ;;
  dt <- PyDatetime.fromtimestamp_utc t ;;
  Ok (PyDatetime.strftime dt).

(** The request of lines 26-34. *)
Definition weather_request (city : string) : request :=
  {| url := "https://api.openweathermap.org/data/2.5/weather";
     params := [("q", PyStr.lower city); ("appid", api_key);
                ("units", "metric")] |}.

(** [fetch_weather_info(city, suffix)], lines 15-85. *)
Definition fetch_weather_info (city suffix : string) : pyresult pydict :=
  response <- requests_get (weather_request city) ;;
  if Z.eqb (status_code response) 200 then
    data <- json response ;;
    coord <- getitem data "coord" ;;
    lat <- getitem coord "lat" ;;
    coord <- getitem data "coord" ;;
    lon <- getitem coord "lon" ;;
    tz <- getitem data "timezone" ;;
    dt0 <- getitem data "dt" ;;
    dt <- format_timestamp dt0 ;;
    main <- getitem data "main" ;;
    temp <- getitem main "temp" ;;
    main <- getitem data "main" ;;
    feels_like <- getitem main "feels_like" ;;
    main <- getitem data "main" ;;
    pressure <- getitem main "pressure" ;;
    main <- getitem data "main" ;;
    humidity <- getitem main "humidity" ;;
    visibility <- getitem data "visibility" ;;
    wind <- getitem data "wind" ;;
    wind_speed <- getitem wind "speed" ;;
    weather <- getitem data "weather" ;;
    weather0 <- getitem0 weather ;;
    descr <- getitem weather0 "description" ;;
    if String.eqb suffix "+" then
      Ok [("latitude", lat);
          ("longitude", lon);
          ("date", PyStr dt);
          ("temperature", temp);
          ("feels_like", feels_like);
          ("description", descr)]
    else if String.eqb suffix "++" then
      Ok [("latitude", lat);
          ("longitude", lon);
          ("timezone", tz);
          ("date", PyStr dt);
          ("temperature", temp);
          ("feels_like", feels_like);
          ("pressure", pressure);
          ("humidity", humidity);
          ("visibility", visibility);
          ("wind_speed", wind_speed);
          ("description", descr)]
    else
      Ok [("temperature", temp);
          ("feels_like", feels_like);
          ("description", descr)]
  else
    Ok [("error_message",
         PyStr ("No weather info for " ++ PyStr.lower city))].

(** [index()], lines 106-117, on the request [req]. *)
Definition index (req : flask_request) : pyresult rendered :=
  let weather_data : pydict := [] in
  let error := PyNone in
  if String.eqb (method req) "POST" then
    city <- form_getitem (form req) "city" ;;
    let '(city, suffix) := split_suffix (PyStr.lower (PyStr.strip city)) in
    weather_data <- fetch_weather_info city suffix ;;
    if Dict.mem "error" weather_data then
      popped <- Dict.pop "error" weather_data ;;
      let '(error, weather_data) := popped in
      Ok (mkRendered "index.html" weather_data error)
    else
      Ok (mkRendered "index.html" weather_data error)
  else
    Ok (mkRendered "index.html" weather_data error).

End App.

(** ** Vocabulary of the specification *)

(** [s] ends with [suffix]: some string followed by [suffix] is [s]. *)
Definition ends_with (s suffix : string) : Prop :=
  exists p, s = p ++ suffix.

(** A step into a JSON document: the member [k] of an object, or the
    element [i] of an array. *)
Inductive step : Set :=
| Key (k : string)
| Index (i : nat).

(** The value at a path of a JSON document, as in [coord.lat] or
    [weather[0].description]. *)
Fixpoint field (v : pyval) (path : list step) : option pyval :=
  match path with
  | [] => Some v
  | Key k :: path' =>
      match v with
      | PyDict d =>
          match Dict.get k d with
          | Some x => field x path'
          | None => None
          end
      | _ => None
      end
  | Index i :: path' =>
      match v with
      | PyList l =>
          match nth_error l i with
          | Some x => field x path'
          | None => None
          end
      | _ => None
      end
  end.

(** The eleven values the fetcher reads of a provider response; [obs_dt]
    is the observation time in epoch seconds. *)
Record observation : Type := mkObservation {
  obs_lat : pyval;
  obs_lon : pyval;
  obs_timezone : pyval;
  obs_dt : Z;
  obs_temp : pyval;
  obs_feels_like : pyval;
  obs_pressure : pyval;
  obs_humidity : pyval;
  obs_visibility : pyval;
  obs_wind_speed : pyval;
  obs_description : pyval
}.

(** Epoch seconds of 1000-01-01 00:00:00 UTC: from here to
    [MAX_TIMESTAMP] the year has four digits. *)
Definition Y1000_TIMESTAMP : Z := -30610224000.

(** The document [data] contains the expected JSON fields, with the
    values [o]; the observation time is an integer number of epoch
    seconds in a year from 1000 to 9999. *)
Definition expected_fields (data : pyval) (o : observation) : Prop :=
  field data [Key "coord"; Key "lat"] = Some (obs_lat o) /\
  field data [Key "coord"; Key "lon"] = Some (obs_lon o) /\
  field data [Key "timezone"] = Some (obs_timezone o) /\
  field data [Key "dt"] = Some (PyInt (obs_dt o)) /\
  (Y1000_TIMESTAMP <= obs_dt o <= PyDatetime.MAX_TIMESTAMP)%Z /\
  field data [Key "main"; Key "temp"] = Some (obs_temp o) /\
  field data [Key "main"; Key "feels_like"] = Some (obs_feels_like o) /\
  field data [Key "main"; Key "pressure"] = Some (obs_pressure o) /\
  field data [Key "main"; Key "humidity"] = Some (obs_humidity o) /\
  field data [Key "visibility"] = Some (obs_visibility o) /\
  field data [Key "wind"; Key "speed"] = Some (obs_wind_speed o) /\
  field data [Key "weather"; Index 0; Key "description"]
    = Some (obs_description o).

(** The keys of the three report shapes, in the order the code writes
    them. *)
Definition report_keys (l : detailLevel) : list string :=
  match l with
  | NONE => ["temperature"; "feels_like"; "description"]
  | PARTIAL =>
      ["latitude"; "longitude"; "date"; "temperature"; "feels_like";
       "description"]
  | FULL =>
      ["latitude"; "longitude"; "timezone"; "date"; "temperature";
       "feels_like"; "pressure"; "humidity"; "visibility"; "wind_speed";
       "description"]
  end.

(** The detail level a suffix selects in the fetcher: [+], [++], and
    the default for every other string. *)
Definition level_of_suffix (suffix : string) : detailLevel :=
  if String.eqb suffix "+" then PARTIAL
  else if String.eqb suffix "++" then FULL
  else NONE.

(** The eleven values of lines 39-49, the date as the string written. *)
Record readings : Type := mkReadings {
  r_lat : pyval;
  r_lon : pyval;
  r_timezone : pyval;
  r_date : string;
  r_temp : pyval;
  r_feels_like : pyval;
  r_pressure : pyval;
  r_humidity : pyval;
  r_visibility : pyval;
  r_wind_speed : pyval;
  r_description : pyval
}.

(** The three dictionaries of lines 52-80. *)
Definition report_of (l : detailLevel) (r : readings) : pydict :=
  match l with
  | PARTIAL =>
      [("latitude", r_lat r);
       ("longitude", r_lon r);
       ("date", PyStr (r_date r));
       ("temperature", r_temp r);
       ("feels_like", r_feels_like r);
       ("description", r_description r)]
  | FULL =>
      [("latitude", r_lat r);
       ("longitude", r_lon r);
       ("timezone", r_timezone r);
       ("date", PyStr (r_date r));
       ("temperature", r_temp r);
       ("feels_like", r_feels_like r);
       ("pressure", r_pressure r);
       ("humidity", r_humidity r);
       ("visibility", r_visibility r);
       ("wind_speed", r_wind_speed r);
       ("description", r_description r)]
  | NONE =>
      [("temperature", r_temp r);
       ("feels_like", r_feels_like r);
       ("description", r_description r)]
  end.

(** The document [data] has the eleven fields, with the values [r]: the
    ten that are copied, and a [dt] that [datetime] turns into the date
    string. *)
Definition reads (float_timestamp : float -> pyresult Z) (data : pyval)
           (r : readings) : Prop :=
  field data [Key "coord"; Key "lat"] = Some (r_lat r) /\
  field data [Key "coord"; Key "lon"] = Some (r_lon r) /\
  field data [Key "timezone"] = Some (r_timezone r) /\
  (exists dt0, field data [Key "dt"] = Some dt0 /\
               format_timestamp float_timestamp dt0 = Ok (r_date r)) /\
  field data [Key "main"; Key "temp"] = Some (r_temp r) /\
  field data [Key "main"; Key "feels_like"] = Some (r_feels_like r) /\
  field data [Key "main"; Key "pressure"] = Some (r_pressure r) /\
  field data [Key "main"; Key "humidity"] = Some (r_humidity r) /\
  field data [Key "visibility"] = Some (r_visibility r) /\
  field data [Key "wind"; Key "speed"] = Some (r_wind_speed r) /\
  field data [Key "weather"; Index 0; Key "description"]
    = Some (r_description r).

(** What the London response reads as. *)
#[warnings="-inexact-float"]
Definition london_readings : readings :=
  {| r_lat := PyFloat 51.5085;
     r_lon := PyFloat (-0.1257);
     r_timezone := PyInt 0;
     r_date := "2023-11-14 22:13:20 UTC";
     r_temp := PyFloat 15.2;
     r_feels_like := PyFloat 14.6;
     r_pressure := PyInt 1012;
     r_humidity := PyInt 60;
     r_visibility := PyInt 10000;
     r_wind_speed := PyFloat 4.63;
     r_description := PyStr "overcast clouds" |}.

(** ** An example provider *)

(** A response of the provider for London, at 2023-11-14 22:13:20 UTC. *)
#[warnings="-inexact-float"]
Definition london_data : pyval :=
  PyDict
    [("coord", PyDict [("lon", PyFloat (-0.1257)); ("lat", PyFloat 51.5085)]);
     ("weather",
      PyList [PyDict [("id", PyInt 804); ("main", PyStr "Clouds");
                      ("description", PyStr "overcast clouds");
                      ("icon", PyStr "04n")]]);
     ("base", PyStr "stations");
     ("main",
      PyDict [("temp", PyFloat 15.2); ("feels_like", PyFloat 14.6);
              ("temp_min", PyFloat 14.1); ("temp_max", PyFloat 16.3);
              ("pressure", PyInt 1012); ("humidity", PyInt 60)]);
     ("visibility", PyInt 10000);
     ("wind", PyDict [("speed", PyFloat 4.63); ("deg", PyInt 250)]);
     ("clouds", PyDict [("all", PyInt 100)]);
     ("dt", PyInt 1700000000);
     ("sys", PyDict [("country", PyStr "GB")]);
     ("timezone", PyInt 0);
     ("id", PyInt 2643743);
     ("name", PyStr "London");
     ("cod", PyInt 200)].

#[warnings="-inexact-float"]
Definition london_observation : observation :=
  {| obs_lat := PyFloat 51.5085;
     obs_lon := PyFloat (-0.1257);
     obs_timezone := PyInt 0;
     obs_dt := 1700000000;
     obs_temp := PyFloat 15.2;
     obs_feels_like := PyFloat 14.6;
     obs_pressure := PyInt 1012;
     obs_humidity := PyInt 60;
     obs_visibility := PyInt 10000;
     obs_wind_speed := PyFloat 4.63;
     obs_description := PyStr "overcast clouds" |}.

(** What the provider answers on a city it does not know. *)
Definition not_found_response : response :=
  {| status_code := 404;
     json := Ok (PyDict [("cod", PyStr "404");
                         ("message", PyStr "city not found")]) |}.

(** A provider that knows London only. *)
Definition example_provider (r : request) : pyresult response :=
  match Dict.get "q" (params r) with
  | Some "london" => Ok {| status_code := 200; json := Ok london_data |}
  | _ => Ok not_found_response
  end.

(** A response with the observation time in milliseconds, as some
    providers write it. *)
#[warnings="-inexact-float"]
Definition millis_data : pyval :=
  PyDict
    [("coord", PyDict [("lon", PyFloat (-0.1257)); ("lat", PyFloat 51.5085)]);
     ("weather", PyList [PyDict [("description", PyStr "overcast clouds")]]);
     ("main",
      PyDict [("temp", PyFloat 15.2); ("feels_like", PyFloat 14.6);
              ("pressure", PyInt 1012); ("humidity", PyInt 60)]);
     ("visibility", PyInt 10000);
     ("wind", PyDict [("speed", PyFloat 4.63)]);
     ("dt", PyInt 1700000000000);
     ("timezone", PyInt 0)].

Definition millis_provider (r : request) : pyresult response :=
  Ok {| status_code := 200; json := Ok millis_data |}.

(** A provider that answers every request as for London. *)
Definition london_provider (r : request) : pyresult response :=
  Ok {| status_code := 200; json := Ok london_data |}.

(** A network that is down. *)
Definition no_network (r : request) : pyresult response :=
  Raise RequestException.

(** The example provider sends no float as a timestamp, so what
    [datetime.fromtimestamp] does on one is never asked. *)
Definition no_float_timestamp (f : float) : pyresult Z := Raise TimestampError.

(** ** Facts about strings *)

Section StringFacts.

Lemma length_app (p q : string) :
  String.length (p ++ q) = String.length p + String.length q.
Proof. induction p as [|c p IH]; simpl; [reflexivity | now rewrite IH]. Qed.

Lemma app_empty_r (p : string) : p ++ "" = p.
Proof. induction p as [|c p IH]; simpl; [reflexivity | now rewrite IH]. Qed.

Lemma app_assoc (p q r : string) : (p ++ q) ++ r = p ++ (q ++ r).
Proof. induction p as [|c p IH]; simpl; [reflexivity | now rewrite IH]. Qed.

Lemma take_drop (n : nat) (s : string) : PyStr.take n s ++ PyStr.drop n s = s.
Proof.
  revert s; induction n as [|n IH]; intros [|c s]; simpl; try reflexivity.
  now rewrite IH.
Qed.

Lemma take_app_length (p q : string) :
  PyStr.take (String.length p) (p ++ q) = p.
Proof. induction p as [|c p IH]; simpl; [now destruct q | now rewrite IH]. Qed.

Lemma drop_app_length (p q : string) :
  PyStr.drop (String.length p) (p ++ q) = q.
Proof. induction p as [|c p IH]; simpl; [reflexivity | exact IH]. Qed.

Lemma length_drop (n : nat) (s : string) :
  String.length (PyStr.drop n s) = String.length s - n.
Proof.
  revert s; induction n as [|n IH]; intros [|c s]; simpl; auto.
Qed.

(** Cutting the suffix off again. *)
Lemma slice_to_neg_app (p suffix : string) :
  PyStr.slice_to_neg (String.length suffix) (p ++ suffix) = p.
Proof.
  unfold PyStr.slice_to_neg. rewrite length_app.
  replace (String.length p + String.length suffix - String.length suffix)
    with (String.length p) by lia.
  apply take_app_length.
Qed.

Lemma endswith_app (p suffix : string) :
  PyStr.endswith (p ++ suffix) suffix = true.
Proof.
  unfold PyStr.endswith. rewrite length_app.
  replace (Nat.leb _ _) with true by (symmetry; apply Nat.leb_le; lia).
  replace (String.length p + String.length suffix - String.length suffix)
    with (String.length p) by lia.
  rewrite drop_app_length. apply String.eqb_refl.
Qed.

Lemma endswith_split (s suffix : string) :
  PyStr.endswith s suffix = true ->
  s = PyStr.slice_to_neg (String.length suffix) s ++ suffix.
Proof.
  unfold PyStr.endswith, PyStr.slice_to_neg.
  destruct (Nat.leb _ _); [|discriminate].
  generalize (String.length s - String.length suffix); intros n H.
  apply String.eqb_eq in H. subst suffix. symmetry. apply take_drop.
Qed.

(** [endswith] decides [ends_with]. *)
Lemma endswith_iff (s suffix : string) :
  PyStr.endswith s suffix = true <-> ends_with s suffix.
Proof.
  split.
  - intros H. eexists. exact (endswith_split _ _ H).
  - intros [p ->]. apply endswith_app.
Qed.

Lemma endswith_false_iff (s suffix : string) :
  PyStr.endswith s suffix = false <-> ~ ends_with s suffix.
Proof.
  rewrite <- endswith_iff. destruct (PyStr.endswith s suffix); split; congruence.
Qed.

Lemma app_inv_tail (p q suffix : string) : p ++ suffix = q ++ suffix -> p = q.
Proof.
  intros H.
  rewrite <- (slice_to_neg_app p suffix), <- (slice_to_neg_app q suffix).
  now rewrite H.
Qed.

Lemma plusses_snoc (n : nat) : PyStr.plusses (S n) = PyStr.plusses n ++ "+".
Proof. induction n as [|n IH]; [reflexivity|]. simpl in *. now rewrite <- IH. Qed.

End StringFacts.

(** ** The suffix parser: what it returns *)

Lemma split_suffix_full (p : string) : split_suffix (p ++ "++") = (p, "++").
Proof.
  unfold split_suffix. rewrite endswith_app.
  change 2 with (String.length "++"). now rewrite slice_to_neg_app.
Qed.

Lemma split_suffix_partial (p : string) :
  ~ ends_with (p ++ "+") "++" -> split_suffix (p ++ "+") = (p, "+").
Proof.
  intros H. apply endswith_false_iff in H.
  unfold split_suffix. rewrite H, endswith_app.
  change 1 with (String.length "+"). now rewrite slice_to_neg_app.
Qed.

Lemma split_suffix_none (s : string) :
  ~ ends_with s "+" -> split_suffix s = (s, "").
Proof.
  intros H. unfold split_suffix.
  assert (H2 : ~ ends_with s "++").
  { intros [p ->]. apply H. exists (p ++ "+"). now rewrite app_assoc. }
  apply endswith_false_iff in H, H2. now rewrite H2, H.
Qed.

(** C1: the suffix parser is total and follows the case analysis of the
    specification. For every string [s]: if [s] is [p] followed by [++] the
    result is [(p, FULL)]; else if [s] is [p] followed by [+] the result is
    [(p, PARTIAL)]; else the result is [(s, NONE)]. One of the three cases
    always applies, and the empty string falls in the last one. *)
Theorem split_suffix_cases (s : string) :
  (forall p, s = p ++ "++" -> split_suffix s = (p, suffix_of FULL)) /\
  (forall p, ~ ends_with s "++" -> s = p ++ "+" ->
             split_suffix s = (p, suffix_of PARTIAL)) /\
  (~ ends_with s "++" -> ~ ends_with s "+" ->
   split_suffix s = (s, suffix_of NONE)) /\
  (ends_with s "++" \/ (~ ends_with s "++" /\ ends_with s "+")
   \/ (~ ends_with s "++" /\ ~ ends_with s "+")) /\
  split_suffix "" = ("", suffix_of NONE).
Proof.
  repeat split.
  - intros p ->. apply split_suffix_full.
  - intros p H ->. now apply split_suffix_partial.
  - intros _ H. now apply split_suffix_none.
  - destruct (PyStr.endswith s "++") eqn:E2.
    + left. now apply endswith_iff.
    + right. apply endswith_false_iff in E2.
      destruct (PyStr.endswith s "+") eqn:E1.
      * left. split; [assumption | now apply endswith_iff].
      * right. split; [assumption | now apply endswith_false_iff].
Qed.

(** C7: the parser strips at most the last two characters, and of three
    or more trailing [+] only the last two go: the others stay in the
    name, under the [++] rule. *)
Theorem split_suffix_strips_at_most_two (s p : string) (n : nat) :
  (exists r, s = fst (split_suffix s) ++ r /\ String.length r <= 2) /\
  split_suffix (p ++ PyStr.plusses (3 + n))
  = (p ++ PyStr.plusses (1 + n), suffix_of FULL).
Proof.
  split.
  - unfold split_suffix.
    destruct (PyStr.endswith s "++") eqn:E2; [|destruct (PyStr.endswith s "+") eqn:E1].
    + exists "++". split; [exact (endswith_split _ _ E2) | simpl; lia].
    + exists "+". split; [exact (endswith_split _ _ E1) | simpl; lia].
    + exists "". split; [now rewrite app_empty_r | simpl; lia].
  - change (3 + n) with (S (S (1 + n))).
    rewrite !plusses_snoc, !app_assoc. simpl ("+" ++ "+").
    rewrite <- !app_assoc. apply split_suffix_full.
Qed.

(** C8: round trip. Whatever [split_suffix] returns on [s], the name
    followed by the suffix is [s] again, and the suffix is one of the
    three the fetcher knows. This holds for the string the handler
    passes, the stripped and lowercased form of the raw input. *)
Theorem split_suffix_roundtrip (s name suffix : string) :
  split_suffix s = (name, suffix) ->
  name ++ suffix = s /\ (suffix = "" \/ suffix = "+" \/ suffix = "++").
Proof.
  unfold split_suffix.
  destruct (PyStr.endswith s "++") eqn:E2; [|destruct (PyStr.endswith s "+") eqn:E1];
    intros H; injection H as <- <-.
  - split; [symmetry; exact (endswith_split _ _ E2) | auto].
  - split; [symmetry; exact (endswith_split _ _ E1) | auto].
  - split; [apply app_empty_r | auto].
Qed.

(** ** Reading fields of a document *)

Lemma field_key (v : pyval) (k : string) (path : list step) (x : pyval) :
  field v (Key k :: path) = Some x ->
  exists y, getitem v k = Ok y /\ field y path = Some x.
Proof.
  simpl. destruct v as [| | | | |l|d]; try discriminate.
  unfold getitem. destruct (Dict.get k d) as [y|]; [|discriminate].
  intros H. now exists y.
Qed.

Lemma field_index0 (v : pyval) (path : list step) (x : pyval) :
  field v (Index 0 :: path) = Some x ->
  exists y, getitem0 v = Ok y /\ field y path = Some x.
Proof.
  simpl. destruct v as [| | | | |l|d]; try discriminate.
  destruct l as [|y l]; [discriminate|].
  intros H. now exists y.
Qed.

Lemma field_here (v x : pyval) : field v [] = Some x -> v = x.
Proof. simpl. congruence. Qed.

(** Two members deep, as the code reads them: [data[k1][k2]]. *)
Lemma field_key2 (v : pyval) (k1 k2 : string) (x : pyval) :
  field v [Key k1; Key k2] = Some x ->
  exists y, getitem v k1 = Ok y /\ getitem y k2 = Ok x.
Proof.
  intros H. apply field_key in H as (y & Hy & H).
  apply field_key in H as (z & Hz & H). apply field_here in H. subst z.
  now exists y.
Qed.

Lemma field_key1 (v : pyval) (k : string) (x : pyval) :
  field v [Key k] = Some x -> getitem v k = Ok x.
Proof.
  intros H. apply field_key in H as (y & Hy & H).
  apply field_here in H. now subst y.
Qed.

Lemma fromtimestamp_utc_in_range (t : Z) :
  (PyDatetime.MIN_TIMESTAMP <= t <= PyDatetime.MAX_TIMESTAMP)%Z ->
  exists dt, PyDatetime.fromtimestamp_utc t = Ok dt.
Proof.
  intros [Hlo Hhi]. unfold PyDatetime.fromtimestamp_utc.
  apply Z.leb_le in Hlo, Hhi. rewrite Hlo, Hhi. simpl.
  destruct (PyDatetime.ord2ymd _) as [[y m] d]. eexists. reflexivity.
Qed.

(** ** The calendar: [ord2ymd] against [ymd2ord] *)

Module DateFacts.

Import PyDatetime.
Local Open Scope Z_scope.

Lemma is_leap_shift (y q : Z) : is_leap (y + 400 * q) = is_leap y.
Proof.
  unfold is_leap.
  replace ((y + 400 * q) mod 4) with (y mod 4)
    by (Z.div_mod_to_equations; lia).
  replace ((y + 400 * q) mod 100) with (y mod 100)
    by (Z.div_mod_to_equations; lia).
  replace ((y + 400 * q) mod 400) with (y mod 400)
    by (Z.div_mod_to_equations; lia).
  reflexivity.
Qed.

Lemma days_before_year_shift (y q : Z) :
  days_before_year (y + 400 * q) = days_before_year y + DI400Y * q.
Proof.
  unfold days_before_year, DI400Y. cbv zeta.
  Z.div_mod_to_equations. lia.
Qed.

Lemma ymd2ord_shift (y m d q : Z) :
  ymd2ord (y + 400 * q) m d = ymd2ord y m d + DI400Y * q.
Proof.
  unfold ymd2ord, days_before_month.
  rewrite days_before_year_shift, is_leap_shift. lia.
Qed.

Lemma days_in_month_shift (y m q : Z) :
  days_in_month (y + 400 * q) m = days_in_month y m.
Proof. unfold days_in_month. now rewrite is_leap_shift. Qed.

(** The date of an ordinal is the date of its place in the cycle of 400
    years, that many cycles later. *)
Lemma ord2ymd_shift (n : Z) :
  ord2ymd n =
  let '(y, m, d) := ord2ymd ((n - 1) mod DI400Y + 1) in
  (y + 400 * ((n - 1) / DI400Y), m, d).
Proof.
  assert (Hr : 0 <= (n - 1) mod DI400Y < DI400Y)
    by (apply Z.mod_pos_bound; reflexivity).
  unfold ord2ymd. cbv zeta.
  replace ((n - 1) mod DI400Y + 1 - 1) with ((n - 1) mod DI400Y) by lia.
  rewrite (Z.div_small ((n - 1) mod DI400Y) DI400Y) by exact Hr.
  rewrite (Z.mod_small ((n - 1) mod DI400Y) DI400Y) by exact Hr.
  generalize ((n - 1) mod DI400Y); intros r.
  generalize ((n - 1) / DI400Y); intros q.
  destruct (_ || _); [f_equal; f_equal; lia|].
  destruct (_ <? _); f_equal; f_equal; lia.
Qed.

Lemma ord_checks_shift (n : Z) :
  ord_checks ((n - 1) mod DI400Y + 1) = true -> ord_checks n = true.
Proof.
  unfold ord_checks. rewrite (ord2ymd_shift n).
  destruct (ord2ymd ((n - 1) mod DI400Y + 1)) as [[y m] d].
  rewrite ymd2ord_shift, days_in_month_shift.
  rewrite !andb_true_iff, !Z.eqb_eq. intros [[[[H1 H2] H3] H4] H5].
  repeat split; try assumption.
  rewrite H1. pose proof (Z.div_mod (n - 1) DI400Y ltac:(discriminate)). lia.
Qed.


Lemma holds_from_spec (f : Z -> bool) (p : positive) : forall lo,
  holds_from f p lo = true -> forall n, lo <= n < lo + Zpos p -> f n = true.
Proof.
  induction p as [p IH|p IH|]; intros lo H n Hn; cbn [holds_from] in H.
  - apply andb_true_iff in H as [H H3]. apply andb_true_iff in H as [H1 H2].
    destruct (Z.eq_dec n lo) as [->|Hne]; [exact H1|].
    destruct (Z_lt_le_dec n (lo + 1 + Zpos p)).
    + apply (IH _ H2). lia.
    + apply (IH _ H3). lia.
  - apply andb_true_iff in H as [H1 H2].
    destruct (Z_lt_le_dec n (lo + Zpos p)).
    + apply (IH _ H1). lia.
    + apply (IH _ H2). lia.
  - replace n with lo by lia. exact H.
Qed.

Lemma month_day_ok (leapyear : bool) (n : Z) :
  0 <= n < 365 -> month_day_checks leapyear n = true.
Proof.
  intros Hn. apply (holds_from_spec (month_day_checks leapyear) 365 0); [|lia].
  destruct leapyear; vm_compute; reflexivity.
Qed.

Lemma ord2ymd_month_day (n : Z) :
  ord2ymd n =
  let r := (n - 1) mod DI400Y in
  let n100 := r / DI100Y in
  let n4 := r mod DI100Y / DI4Y in
  let n1 := r mod DI100Y mod DI4Y / 365 in
  let year := (n - 1) / DI400Y * 400 + 1 + (n100 * 100 + n4 * 4 + n1) in
  if (n1 =? 4) || (n100 =? 4) then (year - 1, 12, 31)
  else
    let '(m, d) :=
      month_day ((n1 =? 3) && (negb (n4 =? 24) || (n100 =? 3)))
                (r mod DI100Y mod DI4Y mod 365) in
    (year, m, d).
Proof.
  unfold ord2ymd, month_day. cbv zeta.
  destruct (_ || _); [reflexivity|].
  destruct (_ <? _); reflexivity.
Qed.

Lemma is_leap_true (y : Z) :
  is_leap y = true <-> y mod 4 = 0 /\ (y mod 100 <> 0 \/ y mod 400 = 0).
Proof.
  unfold is_leap.
  rewrite andb_true_iff, orb_true_iff, negb_true_iff, !Z.eqb_eq, Z.eqb_neq.
  reflexivity.
Qed.

Lemma ord_checks_in_cycle (r : Z) :
  0 <= r < DI400Y -> ord_checks (r + 1) = true.
Proof.
  intros Hr. unfold ord_checks. rewrite ord2ymd_month_day. cbv zeta.
  replace (r + 1 - 1) with r by lia.
  rewrite (Z.div_small r DI400Y), (Z.mod_small r DI400Y) by exact Hr.
  unfold DI400Y, DI100Y, DI4Y in *.
  pose proof (Z.div_mod r 36524 ltac:(discriminate)) as E1.
  pose proof (Z.mod_pos_bound r 36524 ltac:(reflexivity)) as B1.
  set (a := r / 36524) in *. set (r1 := r mod 36524) in *.
  pose proof (Z.div_mod r1 1461 ltac:(discriminate)) as E2.
  pose proof (Z.mod_pos_bound r1 1461 ltac:(reflexivity)) as B2.
  set (b := r1 / 1461) in *. set (r2 := r1 mod 1461) in *.
  pose proof (Z.div_mod r2 365 ltac:(discriminate)) as E3.
  pose proof (Z.mod_pos_bound r2 365 ltac:(reflexivity)) as B3.
  set (c := r2 / 365) in *. set (r3 := r2 mod 365) in *.
  clearbody a r1 b r2 c r3.
  assert (Ha : 0 <= a <= 4) by lia.
  assert (Hb : 0 <= b <= 24) by lia.
  assert (Hc : 0 <= c <= 4) by lia.
  destruct ((c =? 4) || (a =? 4)) eqn:Special.
  - assert (L : is_leap (0 * 400 + 1 + (a * 100 + b * 4 + c) - 1) = true).
    { apply is_leap_true. apply orb_true_iff in Special.
      rewrite !Z.eqb_eq in Special. Z.div_mod_to_equations. lia. }
    unfold ymd2ord, days_before_month, days_in_month, days_before_year.
    rewrite L. cbv zeta.
    change (DAYS_BEFORE_MONTH 12) with 334. change (DAYS_IN_MONTH 12) with 31.
    change (2 <? 12) with true. change (12 =? 2) with false. cbn [andb].
    rewrite !andb_true_iff, Z.eqb_eq, !Z.leb_le.
    apply orb_true_iff in Special. rewrite !Z.eqb_eq in Special.
    repeat split; try lia. Z.div_mod_to_equations. lia.
  - apply orb_false_iff in Special. rewrite !Z.eqb_neq in Special.
    set (leapyear := (c =? 3) && (negb (b =? 24) || (a =? 3))).
    assert (L : is_leap (0 * 400 + 1 + (a * 100 + b * 4 + c)) = leapyear).
    { unfold leapyear. apply eq_true_iff_eq.
      rewrite is_leap_true, andb_true_iff, orb_true_iff, negb_true_iff,
        !Z.eqb_eq, Z.eqb_neq.
      Z.div_mod_to_equations. lia. }
    pose proof (month_day_ok leapyear r3 B3) as C. unfold month_day_checks in C.
    destruct (month_day leapyear r3) as [m d].
    unfold ymd2ord, days_before_month, days_in_month, days_before_year.
    rewrite L. cbv zeta.
    rewrite !andb_true_iff, Z.eqb_eq, !Z.leb_le in C.
    rewrite !andb_true_iff, Z.eqb_eq, !Z.leb_le.
    repeat split; try lia. Z.div_mod_to_equations. lia.
Qed.

Lemma ord_checks_all (n : Z) : ord_checks n = true.
Proof.
  apply ord_checks_shift. apply ord_checks_in_cycle.
  apply Z.mod_pos_bound. reflexivity.
Qed.
(** [ord2ymd] inverts [ymd2ord] and gives dates of the calendar. *)
Lemma ord2ymd_ymd2ord (n y m d : Z) :
  ord2ymd n = (y, m, d) ->
  ymd2ord y m d = n /\ 1 <= m <= 12 /\ 1 <= d <= days_in_month y m.
Proof.
  intros H. pose proof (ord_checks_all n) as C.
  unfold ord_checks in C. rewrite H in C.
  rewrite !andb_true_iff, Z.eqb_eq, !Z.leb_le in C. lia.
Qed.

(** What [fromtimestamp_utc] returns is the broken-down form of [t]:
    a date of the calendar and a time of the day that add up to [t]. *)
Lemma fromtimestamp_utc_sound (t : Z) (dt : datetime) :
  fromtimestamp_utc t = Ok dt ->
  t = (ymd2ord (year dt) (month dt) (day dt) - EPOCH_ORDINAL) * 86400
      + hour dt * 3600 + minute dt * 60 + second dt /\
  1 <= month dt <= 12 /\
  1 <= day dt <= days_in_month (year dt) (month dt) /\
  0 <= hour dt < 24 /\ 0 <= minute dt < 60 /\ 0 <= second dt < 60.
Proof.
  unfold fromtimestamp_utc.
  destruct (_ && _); [|discriminate].
  destruct (ord2ymd _) as [[y m] d] eqn:E.
  apply ord2ymd_ymd2ord in E as (E & Hm & Hd).
  intros H. injection H as <-. simpl.
  rewrite E. repeat split; try lia; Z.div_mod_to_equations; lia.
Qed.

(** A closed term gives way to its value. *)
Ltac eval_closed t := let v := eval vm_compute in t in change t with v in *.

(** The day of the year of a date of the calendar. *)
Lemma days_before_month_day (y m d : Z) :
  1 <= m <= 12 -> 1 <= d <= days_in_month y m ->
  1 <= days_before_month y m + d <= 365 + (if is_leap y then 1 else 0).
Proof.
  intros Hm Hd. unfold days_before_month, days_in_month in *.
  assert (M : m = 1 \/ m = 2 \/ m = 3 \/ m = 4 \/ m = 5 \/ m = 6 \/ m = 7
              \/ m = 8 \/ m = 9 \/ m = 10 \/ m = 11 \/ m = 12) by lia.
  destruct (is_leap y); decompose [or] M; subst m;
    match goal with
    | _ : 1 <= ?k <= 12 |- _ =>
        eval_closed (DAYS_IN_MONTH k); eval_closed (DAYS_BEFORE_MONTH k);
        eval_closed (2 <? k); eval_closed (k =? 2)
    end; cbn [andb] in *; lia.
Qed.
Lemma days_before_year_mono (y1 y2 : Z) :
  y1 <= y2 -> days_before_year y1 <= days_before_year y2.
Proof.
  intros H. unfold days_before_year. cbv zeta.
  Z.div_mod_to_equations. lia.
Qed.

(** From year 1000 on the year has four digits. *)
Lemma fromtimestamp_utc_year (t : Z) (dt : datetime) :
  Y1000_TIMESTAMP <= t ->
  fromtimestamp_utc t = Ok dt ->
  1000 <= year dt <= 9999.
Proof.
  intros Hlo H.
  assert (Hhi : t <= MAX_TIMESTAMP).
  { unfold fromtimestamp_utc in H.
    destruct (MIN_TIMESTAMP <=? t); [|discriminate].
    destruct (t <=? MAX_TIMESTAMP) eqn:E; [|discriminate].
    now apply Z.leb_le. }
  apply fromtimestamp_utc_sound in H as (E & Hm & Hd & Hh & Hmi & Hs).
  pose proof (days_before_month_day _ _ _ Hm Hd) as B.
  unfold ymd2ord in E.
  set (k := days_before_month (year dt) (month dt) + day dt) in *.
  replace (days_before_year (year dt) + days_before_month (year dt) (month dt)
           + day dt) with (days_before_year (year dt) + k) in E by (unfold k; lia).
  clearbody k.
  assert (L : is_leap (year dt) = true -> year dt mod 4 = 0).
  { intros L. now apply is_leap_true in L. }
  unfold Y1000_TIMESTAMP, MAX_TIMESTAMP, EPOCH_ORDINAL in *.
  split.
  - destruct (Z_le_gt_dec (year dt) 999) as [Hy|Hy]; [exfalso|lia].
    destruct (is_leap (year dt)).
    + specialize (L eq_refl).
      assert (Hy' : year dt <= 996) by (Z.div_mod_to_equations; lia).
      apply days_before_year_mono in Hy'.
      change (days_before_year 996) with 363416 in Hy'. lia.
    + apply days_before_year_mono in Hy.
      change (days_before_year 999) with 364512 in Hy. lia.
  - destruct (Z_le_gt_dec 10000 (year dt)) as [Hy|Hy]; [exfalso|lia].
    apply days_before_year_mono in Hy.
    change (days_before_year 10000) with 3652059 in Hy.
    destruct (is_leap (year dt)); lia.
Qed.

(** The date string has the 23 characters of [YYYY-MM-DD HH:MM:SS UTC]. *)
Lemma strftime_length (dt : datetime) : String.length (strftime dt) = 23%nat.
Proof. reflexivity. Qed.

(** Some instants, among them the ends of the ranges. *)
Example epoch_string :
  fromtimestamp_utc 0 = Ok (mkDatetime 1970 1 1 0 0 0) /\
  strftime (mkDatetime 1970 1 1 0 0 0) = "1970-01-01 00:00:00 UTC"%string.
Proof. split; reflexivity. Qed.

Example leap_day_2000 :
  fromtimestamp_utc 951868799 = Ok (mkDatetime 2000 2 29 23 59 59).
Proof. reflexivity. Qed.

Example first_second_of_year_1000 :
  fromtimestamp_utc Y1000_TIMESTAMP = Ok (mkDatetime 1000 1 1 0 0 0) /\
  fromtimestamp_utc (Y1000_TIMESTAMP - 1) = Ok (mkDatetime 999 12 31 23 59 59).
Proof. split; reflexivity. Qed.

Example last_second_of_year_9999 :
  fromtimestamp_utc MAX_TIMESTAMP = Ok (mkDatetime 9999 12 31 23 59 59) /\
  fromtimestamp_utc (MAX_TIMESTAMP + 1) = Raise TimestampError.
Proof. split; reflexivity. Qed.

Example first_second_of_year_1 :
  fromtimestamp_utc MIN_TIMESTAMP = Ok (mkDatetime 1 1 1 0 0 0) /\
  fromtimestamp_utc (MIN_TIMESTAMP - 1) = Raise TimestampError.
Proof. split; reflexivity. Qed.

End DateFacts.

(** ** The weather fetcher *)

(** One step of a run: a call whose outcome is known returns into the
    rest of the body. *)
Ltac run H := rewrite H; cbn [bind].

Section FetchFacts.

Variable api_key : string.
Variable requests_get : request -> pyresult response.
Variable float_timestamp : float -> pyresult Z.

Let fetch := fetch_weather_info api_key requests_get float_timestamp.

(** The one request that is sent: the lowercased name, the key, metric
    units. *)
Lemma fetch_sends_one_request (city suffix : string) (e : exn) :
  requests_get
    {| url := "https://api.openweathermap.org/data/2.5/weather";
       params := [("q", PyStr.lower city); ("appid", api_key);
                  ("units", "metric")] |} = Raise e ->
  fetch city suffix = Raise e.
Proof.
  intros H. unfold fetch, fetch_weather_info, weather_request.
  now rewrite H.
Qed.

(** On any status but 200 the result is the error dictionary. *)
Lemma fetch_not_200 (city suffix : string) (resp : response) :
  requests_get (weather_request api_key city) = Ok resp ->
  status_code resp <> 200%Z ->
  fetch city suffix
  = Ok [("error_message", PyStr ("No weather info for " ++ PyStr.lower city))].
Proof.
  intros Hget Hstatus. unfold fetch, fetch_weather_info.
  rewrite Hget. simpl.
  apply Z.eqb_neq in Hstatus. now rewrite Hstatus.
Qed.

(** On status 200 and the expected fields, the branch on the suffix is
    reached with the eleven values read. *)
Lemma fetch_200 (city suffix : string) (resp : response) (data : pyval)
      (o : observation) :
  requests_get (weather_request api_key city) = Ok resp ->
  status_code resp = 200%Z ->
  json resp = Ok data ->
  expected_fields data o ->
  exists dt,
    PyDatetime.fromtimestamp_utc (obs_dt o) = Ok dt /\
    fetch city suffix =
    if String.eqb suffix "+" then
      Ok [("latitude", obs_lat o);
          ("longitude", obs_lon o);
          ("date", PyStr (PyDatetime.strftime dt));
          ("temperature", obs_temp o);
          ("feels_like", obs_feels_like o);
          ("description", obs_description o)]
    else if String.eqb suffix "++" then
      Ok [("latitude", obs_lat o);
          ("longitude", obs_lon o);
          ("timezone", obs_timezone o);
          ("date", PyStr (PyDatetime.strftime dt));
          ("temperature", obs_temp o);
          ("feels_like", obs_feels_like o);
          ("pressure", obs_pressure o);
          ("humidity", obs_humidity o);
          ("visibility", obs_visibility o);
          ("wind_speed", obs_wind_speed o);
          ("description", obs_description o)]
    else
      Ok [("temperature", obs_temp o);
          ("feels_like", obs_feels_like o);
          ("description", obs_description o)].
Proof.
  intros Hget Hstatus Hjson
    (Hlat & Hlon & Htz & Hdt & Hrange & Htemp & Hfeels & Hpres & Hhum
     & Hvis & Hwind & Hdescr).
  destruct (fromtimestamp_utc_in_range (obs_dt o)) as [dt Hfrom].
  { unfold Y1000_TIMESTAMP, PyDatetime.MIN_TIMESTAMP in *. lia. }
  exists dt. split; [exact Hfrom|].
  apply field_key2 in Hlat as (coord & Hcoord & Hlat).
  apply field_key2 in Hlon as (coord' & Hcoord' & Hlon).
  apply field_key1 in Htz, Hdt, Hvis.
  apply field_key2 in Htemp as (main1 & Hmain1 & Htemp).
  apply field_key2 in Hfeels as (main2 & Hmain2 & Hfeels).
  apply field_key2 in Hpres as (main3 & Hmain3 & Hpres).
  apply field_key2 in Hhum as (main4 & Hmain4 & Hhum).
  apply field_key2 in Hwind as (wind & Hwind0 & Hwind).
  apply field_key in Hdescr as (weather & Hweather & Hdescr).
  apply field_index0 in Hdescr as (weather0 & Hweather0 & Hdescr).
  apply field_key1 in Hdescr.
  rewrite Hcoord in Hcoord'. injection Hcoord' as <-.
  rewrite Hmain1 in Hmain2, Hmain3, Hmain4.
  injection Hmain2 as <-. injection Hmain3 as <-. injection Hmain4 as <-.
  unfold fetch, fetch_weather_info, format_timestamp.
  run Hget. rewrite Hstatus, Z.eqb_refl.
  run Hjson. repeat run Hcoord. run Hlat. run Hlon. run Htz. run Hdt.
  run Hfrom. repeat run Hmain1. run Htemp. run Hfeels. run Hpres.
  run Hhum. run Hvis. run Hwind0. run Hwind. run Hweather.
  run Hweather0. run Hdescr. reflexivity.
Qed.

End FetchFacts.

Section FetchClaims.

Variable api_key : string.
Variable requests_get : request -> pyresult response.
Variable float_timestamp : float -> pyresult Z.

Let fetch := fetch_weather_info api_key requests_get float_timestamp.

(** C2: on a response with status 200 and the expected JSON fields,
    [fetch] with detail level FULL (suffix [++]) returns a report with
    exactly the eleven keys latitude, longitude, timezone, date,
    temperature, feels_like, pressure, humidity, visibility, wind_speed,
    description, holding the values of coord.lat, coord.lon, timezone,
    dt (as a UTC date string), main.temp, main.feels_like, main.pressure,
    main.humidity, visibility, wind.speed and weather[0].description. *)
Theorem fetch_full_report (city : string) (resp : response) (data : pyval)
        (o : observation) :
  requests_get (weather_request api_key city) = Ok resp ->
  status_code resp = 200%Z ->
  json resp = Ok data ->
  expected_fields data o ->
  exists dt d,
    PyDatetime.fromtimestamp_utc (obs_dt o) = Ok dt /\
    fetch city (suffix_of FULL) = Ok d /\
    Dict.keys d = report_keys FULL /\
    d = [("latitude", obs_lat o);
         ("longitude", obs_lon o);
         ("timezone", obs_timezone o);
         ("date", PyStr (PyDatetime.strftime dt));
         ("temperature", obs_temp o);
         ("feels_like", obs_feels_like o);
         ("pressure", obs_pressure o);
         ("humidity", obs_humidity o);
         ("visibility", obs_visibility o);
         ("wind_speed", obs_wind_speed o);
         ("description", obs_description o)].
Proof.
  intros Hget Hstatus Hjson Hfields.
  destruct (fetch_200 api_key requests_get float_timestamp city
              (suffix_of FULL) resp data o Hget Hstatus Hjson Hfields)
    as (dt & Hdt & Hfetch).
  exists dt. eexists. split; [exact Hdt|].
  split; [exact Hfetch|]. split; reflexivity.
Qed.

(** C5: on a response with status 200 and the expected JSON fields,
    [fetch] with detail level PARTIAL (suffix [+]) returns a report with
    exactly the six keys latitude, longitude, date, temperature,
    feels_like, description, holding the values of the corresponding
    fields of the response. *)
Theorem fetch_partial_report (city : string) (resp : response) (data : pyval)
        (o : observation) :
  requests_get (weather_request api_key city) = Ok resp ->
  status_code resp = 200%Z ->
  json resp = Ok data ->
  expected_fields data o ->
  exists dt d,
    PyDatetime.fromtimestamp_utc (obs_dt o) = Ok dt /\
    fetch city (suffix_of PARTIAL) = Ok d /\
    Dict.keys d = report_keys PARTIAL /\
    d = [("latitude", obs_lat o);
         ("longitude", obs_lon o);
         ("date", PyStr (PyDatetime.strftime dt));
         ("temperature", obs_temp o);
         ("feels_like", obs_feels_like o);
         ("description", obs_description o)].
Proof.
  intros Hget Hstatus Hjson Hfields.
  destruct (fetch_200 api_key requests_get float_timestamp city
              (suffix_of PARTIAL) resp data o Hget Hstatus Hjson Hfields)
    as (dt & Hdt & Hfetch).
  exists dt. eexists. split; [exact Hdt|].
  split; [exact Hfetch|]. split; reflexivity.
Qed.

(** C6: on a response with status 200 and the expected JSON fields,
    [fetch] with detail level NONE (the empty suffix) returns a report
    with exactly the three keys temperature, feels_like, description,
    holding main.temp, main.feels_like and weather[0].description. *)
Theorem fetch_none_report (city : string) (resp : response) (data : pyval)
        (o : observation) :
  requests_get (weather_request api_key city) = Ok resp ->
  status_code resp = 200%Z ->
  json resp = Ok data ->
  expected_fields data o ->
  exists d,
    fetch city (suffix_of NONE) = Ok d /\
    Dict.keys d = report_keys NONE /\
    d = [("temperature", obs_temp o);
         ("feels_like", obs_feels_like o);
         ("description", obs_description o)].
Proof.
  intros Hget Hstatus Hjson Hfields.
  destruct (fetch_200 api_key requests_get float_timestamp city
              (suffix_of NONE) resp data o Hget Hstatus Hjson Hfields)
    as (dt & Hdt & Hfetch).
  eexists. split; [exact Hfetch|]. split; reflexivity.
Qed.

(** C9: on a response with status 200 and the expected JSON fields,
    every suffix that is neither [+] nor [++], empty or not, falls
    through to the default branch: the report has the three keys of the
    NONE shape. *)
Theorem fetch_other_suffix_is_none_shape (city suffix : string)
        (resp : response) (data : pyval) (o : observation) :
  suffix <> "+" ->
  suffix <> "++" ->
  requests_get (weather_request api_key city) = Ok resp ->
  status_code resp = 200%Z ->
  json resp = Ok data ->
  expected_fields data o ->
  exists d,
    fetch city suffix = Ok d /\
    Dict.keys d = report_keys NONE /\
    d = [("temperature", obs_temp o);
         ("feels_like", obs_feels_like o);
         ("description", obs_description o)].
Proof.
  intros H1 H2 Hget Hstatus Hjson Hfields.
  destruct (fetch_200 api_key requests_get float_timestamp city
              suffix resp data o Hget Hstatus Hjson Hfields)
    as (dt & Hdt & Hfetch).
  apply String.eqb_neq in H1, H2. rewrite H1, H2 in Hfetch.
  eexists. split; [exact Hfetch|]. split; reflexivity.
Qed.

(** C3: on a response whose status is not 200, whatever the status, the
    body and the detail level, [fetch] returns the error result with
    the message [No weather info for ] followed by the lowercased
    name. *)
Theorem fetch_error_message (city suffix : string) (resp : response) :
  requests_get (weather_request api_key city) = Ok resp ->
  status_code resp <> 200%Z ->
  exists d,
    fetch city suffix = Ok d /\
    d = [("error_message",
          PyStr ("No weather info for " ++ PyStr.lower city))] /\
    Dict.get "error_message" d
    = Some (PyStr ("No weather info for " ++ PyStr.lower city)).
Proof.
  intros Hget Hstatus. eexists. split.
  - now apply fetch_not_200 with (resp := resp).
  - split; reflexivity.
Qed.

(** C10: on a response whose status is not 200, the dictionary [fetch]
    returns has exactly one key, [error_message]: no key [error] and
    none of the keys of a weather report, whatever the detail level
    asked. *)
Theorem fetch_error_keys (city suffix : string) (resp : response) :
  requests_get (weather_request api_key city) = Ok resp ->
  status_code resp <> 200%Z ->
  exists d,
    fetch city suffix = Ok d /\
    Dict.keys d = ["error_message"] /\
    Dict.mem "error" d = false /\
    forall l k, In k (report_keys l) -> Dict.mem k d = false.
Proof.
  intros Hget Hstatus. eexists. split.
  - now apply fetch_not_200 with (resp := resp).
  - split; [reflexivity|]. split; [reflexivity|].
    intros l k Hk.
    destruct l; simpl in Hk;
      repeat (destruct Hk as [<-|Hk]; [reflexivity|]); contradiction.
Qed.

End FetchClaims.

(** ** The request handler *)

Section IndexFacts.

Variable api_key : string.
Variable requests_get : request -> pyresult response.
Variable float_timestamp : float -> pyresult Z.

Let fetch := fetch_weather_info api_key requests_get float_timestamp.

(** Any method but POST renders the empty form. *)
Lemma index_not_post (req : flask_request) :
  method req <> "POST" ->
  index api_key requests_get float_timestamp req
  = Ok {| template := "index.html"; data := []; error := PyNone |}.
Proof.
  intros H. apply String.eqb_neq in H.
  unfold index. now rewrite H.
Qed.

(** On a POST the handler parses the stripped and lowercased field
    [city] and fetches with the two parts; a result without the key
    [error] is rendered as the data, with no error. *)
Lemma index_post (req : flask_request) (raw name suffix : string)
      (d : pydict) :
  method req = "POST" ->
  Dict.get "city" (form req) = Some raw ->
  split_suffix (PyStr.lower (PyStr.strip raw)) = (name, suffix) ->
  fetch name suffix = Ok d ->
  Dict.mem "error" d = false ->
  index api_key requests_get float_timestamp req
  = Ok {| template := "index.html"; data := d; error := PyNone |}.
Proof.
  intros Hm Hform Hsplit Hfetch Hmem.
  unfold index, form_getitem.
  rewrite Hm, Hform. cbn [String.eqb Ascii.eqb Bool.eqb bind].
  rewrite Hsplit. fold fetch. run Hfetch. now rewrite Hmem.
Qed.

(** On a POST whose fetch fails, the message stays in the data, under
    [error_message], and the error the view gets is [None]: the handler
    looks for the key [error], which the fetcher never writes. *)
Lemma index_post_not_200 (req : flask_request) (raw name suffix : string)
      (resp : response) :
  method req = "POST" ->
  Dict.get "city" (form req) = Some raw ->
  split_suffix (PyStr.lower (PyStr.strip raw)) = (name, suffix) ->
  requests_get (weather_request api_key name) = Ok resp ->
  status_code resp <> 200%Z ->
  index api_key requests_get float_timestamp req
  = Ok {| template := "index.html";
          data := [("error_message",
                    PyStr ("No weather info for " ++ PyStr.lower name))];
          error := PyNone |}.
Proof.
  intros Hm Hform Hsplit Hget Hstatus.
  apply index_post with (raw := raw) (name := name) (suffix := suffix);
    try assumption; [|reflexivity].
  now apply fetch_not_200 with (resp := resp).
Qed.

End IndexFacts.

(** C4: a POST for Atlantis, a city the provider answers with status
    404. The claim wants the fetcher's message passed to the view as the
    error value; the handler tests the key [error], the fetcher wrote
    [error_message], so the view gets [None] as the error and the message
    stays inside the data. *)
Theorem index_atlantis_error_is_None :
  index "k" example_provider no_float_timestamp
        {| method := "POST"; form := [("city", "Atlantis")] |}
  = Ok {| template := "index.html";
          data := [("error_message", PyStr "No weather info for atlantis")];
          error := PyNone |}.
Proof. reflexivity. Qed.

(** The scenario of the specification: [London++] is parsed as london
    with full detail, and the report has the eleven keys. *)
Example index_london_full :
  exists d,
    index "k" example_provider no_float_timestamp
          {| method := "POST"; form := [("city", " London++ ")] |}
    = Ok {| template := "index.html"; data := d; error := PyNone |} /\
    Dict.keys d = report_keys FULL /\
    Dict.get "humidity" d = Some (PyInt 60) /\
    Dict.get "date" d = Some (PyStr "2023-11-14 22:13:20 UTC").
Proof. eexists. repeat split. Qed.

(** ** Witnesses: the theorems at the example provider *)

Lemma london_expected_fields : expected_fields london_data london_observation.
Proof.
  unfold expected_fields. repeat split; try reflexivity;
    unfold Y1000_TIMESTAMP, PyDatetime.MAX_TIMESTAMP; simpl; lia.
Defined.

Lemma split_suffix_cases_witness :
  split_suffix "london++" = ("london", suffix_of FULL) /\
  split_suffix "paris+" = ("paris", suffix_of PARTIAL) /\
  split_suffix "tokyo" = ("tokyo", suffix_of NONE).
Proof.
  split; [|split].
  - apply (proj1 (split_suffix_cases "london++") "london"). reflexivity.
  - apply (proj1 (proj2 (split_suffix_cases "paris+")) "paris").
    + apply endswith_false_iff. reflexivity.
    + reflexivity.
  - apply (proj1 (proj2 (proj2 (split_suffix_cases "tokyo")))).
    + apply endswith_false_iff. reflexivity.
    + apply endswith_false_iff. reflexivity.
Defined.

Lemma split_suffix_roundtrip_witness :
  "london" ++ "++" = "london++" /\ ("++" = "" \/ "++" = "+" \/ "++" = "++").
Proof. apply (split_suffix_roundtrip "london++" "london" "++"). reflexivity. Defined.

Lemma fetch_full_report_witness :
  exists dt d,
    PyDatetime.fromtimestamp_utc 1700000000 = Ok dt /\
    fetch_weather_info "k" example_provider no_float_timestamp "London" "++"
    = Ok d /\
    Dict.keys d = report_keys FULL /\
    d = [("latitude", obs_lat london_observation);
         ("longitude", obs_lon london_observation);
         ("timezone", PyInt 0);
         ("date", PyStr (PyDatetime.strftime dt));
         ("temperature", obs_temp london_observation);
         ("feels_like", obs_feels_like london_observation);
         ("pressure", PyInt 1012);
         ("humidity", PyInt 60);
         ("visibility", PyInt 10000);
         ("wind_speed", obs_wind_speed london_observation);
         ("description", PyStr "overcast clouds")].
Proof.
  apply (fetch_full_report "k" example_provider no_float_timestamp "London"
           {| status_code := 200; json := Ok london_data |} london_data
           london_observation).
  - reflexivity.
  - reflexivity.
  - reflexivity.
  - exact london_expected_fields.
Defined.

Lemma fetch_partial_report_witness :
  exists dt d,
    PyDatetime.fromtimestamp_utc 1700000000 = Ok dt /\
    fetch_weather_info "k" example_provider no_float_timestamp "London" "+"
    = Ok d /\
    Dict.keys d = report_keys PARTIAL /\
    d = [("latitude", obs_lat london_observation);
         ("longitude", obs_lon london_observation);
         ("date", PyStr (PyDatetime.strftime dt));
         ("temperature", obs_temp london_observation);
         ("feels_like", obs_feels_like london_observation);
         ("description", PyStr "overcast clouds")].
Proof.
  apply (fetch_partial_report "k" example_provider no_float_timestamp "London"
           {| status_code := 200; json := Ok london_data |} london_data
           london_observation).
  - reflexivity.
  - reflexivity.
  - reflexivity.
  - exact london_expected_fields.
Defined.

Lemma fetch_none_report_witness :
  exists d,
    fetch_weather_info "k" example_provider no_float_timestamp "London" ""
    = Ok d /\
    Dict.keys d = report_keys NONE /\
    d = [("temperature", obs_temp london_observation);
         ("feels_like", obs_feels_like london_observation);
         ("description", PyStr "overcast clouds")].
Proof.
  apply (fetch_none_report "k" example_provider no_float_timestamp "London"
           {| status_code := 200; json := Ok london_data |} london_data
           london_observation).
  - reflexivity.
  - reflexivity.
  - reflexivity.
  - exact london_expected_fields.
Defined.

Lemma fetch_other_suffix_witness :
  exists d,
    fetch_weather_info "k" example_provider no_float_timestamp "London" "+++"
    = Ok d /\
    Dict.keys d = report_keys NONE /\
    d = [("temperature", obs_temp london_observation);
         ("feels_like", obs_feels_like london_observation);
         ("description", PyStr "overcast clouds")].
Proof.
  apply (fetch_other_suffix_is_none_shape "k" example_provider
           no_float_timestamp "London" "+++"
           {| status_code := 200; json := Ok london_data |} london_data
           london_observation).
  - discriminate.
  - discriminate.
  - reflexivity.
  - reflexivity.
  - reflexivity.
  - exact london_expected_fields.
Defined.

Lemma fetch_error_message_witness :
  exists d,
    fetch_weather_info "k" example_provider no_float_timestamp "Atlantis" ""
    = Ok d /\
    d = [("error_message", PyStr "No weather info for atlantis")] /\
    Dict.get "error_message" d = Some (PyStr "No weather info for atlantis").
Proof.
  apply (fetch_error_message "k" example_provider no_float_timestamp
           "Atlantis" "" not_found_response).
  - reflexivity.
  - discriminate.
Defined.

Lemma fetch_error_keys_witness :
  exists d,
    fetch_weather_info "k" example_provider no_float_timestamp "Atlantis" "++"
    = Ok d /\
    Dict.keys d = ["error_message"] /\
    Dict.mem "error" d = false /\
    forall l k, In k (report_keys l) -> Dict.mem k d = false.
Proof.
  apply (fetch_error_keys "k" example_provider no_float_timestamp
           "Atlantis" "++" not_found_response).
  - reflexivity.
  - discriminate.
Defined.

(** * Further properties of the code *)

(** ** More on strings: lowercasing and stripping *)

Section NormaliseFacts.

Lemma lower_char_idempotent (c : ascii) :
  PyStr.lower_char (PyStr.lower_char c) = PyStr.lower_char c.
Proof. destruct c as [[] [] [] [] [] [] [] []]; reflexivity. Qed.

Lemma is_space_lower_char (c : ascii) :
  PyStr.is_space (PyStr.lower_char c) = PyStr.is_space c.
Proof. destruct c as [[] [] [] [] [] [] [] []]; reflexivity. Qed.

Lemma lower_idempotent (s : string) : PyStr.lower (PyStr.lower s) = PyStr.lower s.
Proof.
  induction s as [|c s IH]; simpl; [reflexivity|].
  now rewrite lower_char_idempotent, IH.
Qed.

Lemma length_lower (s : string) : String.length (PyStr.lower s) = String.length s.
Proof. induction s as [|c s IH]; simpl; [reflexivity | now rewrite IH]. Qed.

Lemma lower_take (n : nat) (s : string) :
  PyStr.lower (PyStr.take n s) = PyStr.take n (PyStr.lower s).
Proof.
  revert s; induction n as [|n IH]; intros [|c s]; simpl; try reflexivity.
  now rewrite IH.
Qed.

Lemma lstrip_lower (s : string) :
  PyStr.lstrip (PyStr.lower s) = PyStr.lower (PyStr.lstrip s).
Proof.
  induction s as [|c s IH]; simpl; [reflexivity|].
  rewrite is_space_lower_char. destruct (PyStr.is_space c); [exact IH | reflexivity].
Qed.

Lemma rstrip_lower (s : string) :
  PyStr.rstrip (PyStr.lower s) = PyStr.lower (PyStr.rstrip s).
Proof.
  induction s as [|c s IH]; simpl; [reflexivity|].
  rewrite IH, is_space_lower_char.
  destruct (PyStr.rstrip s); simpl; [|reflexivity].
  destruct (PyStr.is_space c); reflexivity.
Qed.

(** Lowercasing and stripping commute: no letter is white space. *)
Lemma strip_lower (s : string) :
  PyStr.strip (PyStr.lower s) = PyStr.lower (PyStr.strip s).
Proof. unfold PyStr.strip. now rewrite lstrip_lower, rstrip_lower. Qed.

Lemma rstrip_idempotent (s : string) :
  PyStr.rstrip (PyStr.rstrip s) = PyStr.rstrip s.
Proof.
  induction s as [|c s IH]; simpl; [reflexivity|].
  destruct (PyStr.rstrip s) as [|c' r] eqn:E.
  - destruct (PyStr.is_space c) eqn:Ec; simpl; [reflexivity | now rewrite Ec].
  - cbn [PyStr.rstrip]. cbn [PyStr.rstrip] in IH. now rewrite IH.
Qed.

(** What [lstrip] leaves starts with no white space, and [rstrip] keeps
    that first character. *)
Lemma lstrip_rstrip (s : string) :
  PyStr.lstrip (PyStr.rstrip (PyStr.lstrip s)) = PyStr.rstrip (PyStr.lstrip s).
Proof.
  induction s as [|c s IH]; simpl; [reflexivity|].
  destruct (PyStr.is_space c) eqn:Ec; [exact IH|].
  simpl. destruct (PyStr.rstrip s); rewrite ?Ec; simpl; now rewrite Ec.
Qed.

Lemma strip_idempotent (s : string) : PyStr.strip (PyStr.strip s) = PyStr.strip s.
Proof. unfold PyStr.strip. now rewrite lstrip_rstrip, rstrip_idempotent. Qed.

(** The normal form the handler parses is a fixed point of the
    normalisation. *)
Lemma normalise_idempotent (s : string) :
  PyStr.lower (PyStr.strip (PyStr.lower (PyStr.strip s)))
  = PyStr.lower (PyStr.strip s).
Proof. now rewrite strip_lower, strip_idempotent, lower_idempotent. Qed.

(** The name parsed off a lowercased string is lowercased. *)
Lemma split_suffix_lower_name (s : string) :
  PyStr.lower (fst (split_suffix (PyStr.lower s)))
  = fst (split_suffix (PyStr.lower s)).
Proof.
  unfold split_suffix, PyStr.slice_to_neg.
  destruct (PyStr.endswith _ "++"); [|destruct (PyStr.endswith _ "+")]; simpl;
    rewrite ?lower_take; now rewrite lower_idempotent.
Qed.

End NormaliseFacts.

(** ** The suffix parser: which pairs it returns *)

(** How a result came about: the three returns of [split_suffix]. *)
Lemma split_suffix_inv (s name suffix : string) :
  split_suffix s = (name, suffix) ->
  (suffix = "++" /\ s = name ++ "++")
  \/ (suffix = "+" /\ s = name ++ "+" /\ ~ ends_with s "++")
  \/ (suffix = "" /\ s = name /\ ~ ends_with s "+").
Proof.
  unfold split_suffix.
  destruct (PyStr.endswith s "++") eqn:E2; [|destruct (PyStr.endswith s "+") eqn:E1];
    intros H; injection H as <- <-.
  - left. split; [reflexivity | exact (endswith_split _ _ E2)].
  - right; left. split; [reflexivity|].
    split; [exact (endswith_split _ _ E1) | now apply endswith_false_iff].
  - right; right. split; [reflexivity|].
    split; [reflexivity | now apply endswith_false_iff].
Qed.

Lemma plus_after_plus (p : string) :
  ends_with p "+" <-> ends_with (p ++ "+") "++".
Proof.
  split.
  - intros [q ->]. exists q. now rewrite app_assoc.
  - intros [q Hq]. exists q. apply (app_inv_tail _ _ "+").
    now rewrite Hq, app_assoc.
Qed.

(** X1: unless the suffix returned is [++], the name returned does not end
    with [+]: a trailing plus sign stays in the name only under the [++]
    rule. *)
Theorem split_suffix_name_no_trailing_plus (s name suffix : string) :
  split_suffix s = (name, suffix) ->
  suffix <> "++" ->
  ~ ends_with name "+".
Proof.
  intros H Hne.
  destruct (split_suffix_inv _ _ _ H) as [[E _]|[(_ & E & Hn)|(_ & E & Hn)]].
  - contradiction.
  - subst s. now rewrite plus_after_plus.
  - now subst s.
Qed.

(** X2: the pairs the parser returns. A name followed by a suffix parses
    back to that name and suffix exactly when the suffix is [++], or it is
    empty or [+] and the name does not end with [+]. *)
Theorem split_suffix_image (name suffix : string) :
  split_suffix (name ++ suffix) = (name, suffix) <->
  suffix = "++" \/ ((suffix = "" \/ suffix = "+") /\ ~ ends_with name "+").
Proof.
  split.
  - intros H.
    destruct (split_suffix_inv _ _ _ H) as [[E _]|[(E & _ & Hn)|(E & _ & Hn)]];
      subst suffix.
    + now left.
    + right. split; [now right | now rewrite plus_after_plus].
    + right. split; [now left | now rewrite app_empty_r in Hn].
  - intros [->|[[->| ->] Hn]].
    + apply split_suffix_full.
    + rewrite app_empty_r. now apply split_suffix_none.
    + apply split_suffix_partial. now rewrite <- plus_after_plus.
Qed.

(** ** The weather fetcher: every way it returns *)

Lemma bind_inv {A B : Type} (r : pyresult A) (k : A -> pyresult B) (y : B) :
  bind r k = Ok y -> exists x, r = Ok x /\ k x = Ok y.
Proof. destruct r as [x|e]; simpl; [|discriminate]. intros H. now exists x. Qed.

(** A call that returned: its value, and the rest of the body. *)
Tactic Notation "returned" hyp(H) ident(x) ident(Hx) :=
  apply bind_inv in H as (x & Hx & H); cbv beta in H.

Lemma field_of_getitem (v x : pyval) (k : string) (path : list step) :
  getitem v k = Ok x -> field v (Key k :: path) = field x path.
Proof.
  destruct v as [| | | | |l|d]; try discriminate. simpl.
  destruct (Dict.get k d) as [y|]; [|discriminate]. now intros [= ->].
Qed.

Lemma field_of_getitem0 (w w0 x : pyval) (k : string) :
  getitem0 w = Ok w0 -> getitem w0 k = Ok x ->
  field w [Index 0; Key k] = Some x.
Proof.
  intros H0 Hk.
  destruct w as [| | | |s|l|d]; try discriminate.
  - destruct s; [discriminate|]. injection H0 as <-. discriminate.
  - destruct l as [|y l]; [discriminate|]. injection H0 as ->.
    change (field (PyList (w0 :: l)) [Index 0; Key k]) with (field w0 [Key k]).
    now rewrite (field_of_getitem _ _ _ _ Hk).
Qed.

(** Every key one of the reports holds, the full report holds with the
    same value. *)
Lemma report_of_in_full (l : detailLevel) (r : readings) (k : string) (v : pyval) :
  Dict.get k (report_of l r) = Some v ->
  Dict.get k (report_of FULL r) = Some v.
Proof.
  destruct l; [| |exact (fun H => H)]; cbn [report_of Dict.get];
    repeat match goal with
           | |- context [String.eqb k ?s] =>
               destruct (String.eqb_spec k s); [subst k; simpl; congruence|]
           end; discriminate.
Qed.

Lemma keys_report_of (l : detailLevel) (r : readings) :
  Dict.keys (report_of l r) = report_keys l.
Proof. destruct l; reflexivity. Qed.

Section FetchReturns.

Variable api_key : string.
Variable requests_get : request -> pyresult response.
Variable float_timestamp : float -> pyresult Z.

Let fetch := fetch_weather_info api_key requests_get float_timestamp.

(** The branch on the suffix is the choice of a detail level. *)
Lemma suffix_branches (suffix : string) (r : readings) :
  (if String.eqb suffix "+" then Ok (report_of PARTIAL r)
   else if String.eqb suffix "++" then Ok (report_of FULL r)
        else Ok (report_of NONE r))
  = Ok (report_of (level_of_suffix suffix) r).
Proof.
  unfold level_of_suffix.
  destruct (String.eqb suffix "+"); [reflexivity|].
  destruct (String.eqb suffix "++"); reflexivity.
Qed.

(** On status 200, a document that reads as [r] gives the report of [r]. *)
Lemma fetch_200_reads (city suffix : string) (resp : response) (data : pyval)
      (r : readings) :
  requests_get (weather_request api_key city) = Ok resp ->
  status_code resp = 200%Z ->
  json resp = Ok data ->
  reads float_timestamp data r ->
  fetch city suffix = Ok (report_of (level_of_suffix suffix) r).
Proof.
  intros Hget Hstatus Hjson
    (Hlat & Hlon & Htz & (dt0 & Hdt & Hdate) & Htemp & Hfeels & Hpres & Hhum
     & Hvis & Hwind & Hdescr).
  apply field_key2 in Hlat as (coord & Hcoord & Hlat).
  apply field_key2 in Hlon as (coord' & Hcoord' & Hlon).
  apply field_key1 in Htz, Hdt, Hvis.
  apply field_key2 in Htemp as (main1 & Hmain1 & Htemp).
  apply field_key2 in Hfeels as (main2 & Hmain2 & Hfeels).
  apply field_key2 in Hpres as (main3 & Hmain3 & Hpres).
  apply field_key2 in Hhum as (main4 & Hmain4 & Hhum).
  apply field_key2 in Hwind as (wind & Hwind0 & Hwind).
  apply field_key in Hdescr as (weather & Hweather & Hdescr).
  apply field_index0 in Hdescr as (weather0 & Hweather0 & Hdescr).
  apply field_key1 in Hdescr.
  rewrite Hcoord in Hcoord'. injection Hcoord' as <-.
  rewrite Hmain1 in Hmain2, Hmain3, Hmain4.
  injection Hmain2 as <-. injection Hmain3 as <-. injection Hmain4 as <-.
  rewrite <- suffix_branches.
  unfold fetch, fetch_weather_info.
  run Hget. rewrite Hstatus, Z.eqb_refl.
  run Hjson. repeat run Hcoord. run Hlat. run Hlon. run Htz. run Hdt.
  run Hdate. repeat run Hmain1. run Htemp. run Hfeels. run Hpres.
  run Hhum. run Hvis. run Hwind0. run Hwind. run Hweather.
  run Hweather0. run Hdescr. reflexivity.
Qed.

(** On status 200, a report came from a document that reads as some [r]. *)
Lemma fetch_200_inv (city suffix : string) (resp : response) (d : pydict) :
  requests_get (weather_request api_key city) = Ok resp ->
  status_code resp = 200%Z ->
  fetch city suffix = Ok d ->
  exists data r,
    json resp = Ok data /\ reads float_timestamp data r /\
    d = report_of (level_of_suffix suffix) r.
Proof.
  intros Hget Hstatus H. unfold fetch, fetch_weather_info in H.
  rewrite Hget in H; cbn [bind] in H. rewrite Hstatus, Z.eqb_refl in H.
  returned H data Hjson. returned H coord Hcoord. returned H lat Hlat.
  returned H coord' Hcoord'. returned H lon Hlon. returned H tz Htz.
  returned H dt0 Hdt. returned H date Hdate.
  returned H main1 Hmain1. returned H temp Htemp.
  returned H main2 Hmain2. returned H feels Hfeels.
  returned H main3 Hmain3. returned H pres Hpres.
  returned H main4 Hmain4. returned H hum Hhum.
  returned H vis Hvis. returned H wind Hwind0. returned H speed Hwind.
  returned H weather Hweather. returned H weather0 Hweather0.
  returned H descr Hdescr.
  exists data,
    (mkReadings lat lon tz date temp feels pres hum vis speed descr).
  split; [exact Hjson|]. split.
  - unfold reads. cbn [r_lat r_lon r_timezone r_date r_temp r_feels_like
                       r_pressure r_humidity r_visibility r_wind_speed
                       r_description].
    rewrite (field_of_getitem _ _ _ _ Hcoord), (field_of_getitem _ _ _ _ Hlat).
    rewrite (field_of_getitem _ _ _ _ Hcoord'), (field_of_getitem _ _ _ _ Hlon).
    rewrite (field_of_getitem _ _ _ _ Htz).
    rewrite (field_of_getitem _ _ _ _ Hmain1), (field_of_getitem _ _ _ _ Htemp).
    rewrite (field_of_getitem _ _ _ _ Hmain2), (field_of_getitem _ _ _ _ Hfeels).
    rewrite (field_of_getitem _ _ _ _ Hmain3), (field_of_getitem _ _ _ _ Hpres).
    rewrite (field_of_getitem _ _ _ _ Hmain4), (field_of_getitem _ _ _ _ Hhum).
    rewrite (field_of_getitem _ _ _ _ Hvis).
    rewrite (field_of_getitem _ _ _ _ Hwind0), (field_of_getitem _ _ _ _ Hwind).
    rewrite (field_of_getitem _ _ _ _ Hweather).
    rewrite (field_of_getitem0 _ _ _ _ Hweather0 Hdescr).
    repeat split; try reflexivity.
    exists dt0. split; [|exact Hdate].
    now rewrite (field_of_getitem _ _ _ _ Hdt).
  - unfold level_of_suffix.
    destruct (String.eqb suffix "+"); [|destruct (String.eqb suffix "++")];
      now injection H as <-.
Qed.

(** Whatever [fetch] returns, it got a response: the error dictionary off
    a status other than 200, a report off a status 200. *)
Lemma fetch_inv (city suffix : string) (d : pydict) :
  fetch city suffix = Ok d ->
  exists resp,
    requests_get (weather_request api_key city) = Ok resp /\
    ((status_code resp <> 200%Z /\
      d = [("error_message",
            PyStr ("No weather info for " ++ PyStr.lower city))])
     \/ (status_code resp = 200%Z /\
         exists data r,
           json resp = Ok data /\ reads float_timestamp data r /\
           d = report_of (level_of_suffix suffix) r)).
Proof.
  intros H.
  destruct (requests_get (weather_request api_key city)) as [resp|e] eqn:Hget.
  - exists resp. split; [reflexivity|].
    destruct (Z.eq_dec (status_code resp) 200) as [Hs|Hs].
    + right. split; [exact Hs|]. exact (fetch_200_inv _ _ _ _ Hget Hs H).
    + left. split; [exact Hs|].
      pose proof (fetch_not_200 api_key requests_get float_timestamp
                    city suffix resp Hget Hs) as E.
      fold fetch in E. rewrite E in H. now injection H as <-.
  - unfold fetch, fetch_weather_info in H. rewrite Hget in H. discriminate.
Qed.

End FetchReturns.

Section FetchExtras.

Variable api_key : string.
Variable requests_get : request -> pyresult response.
Variable float_timestamp : float -> pyresult Z.

Let fetch := fetch_weather_info api_key requests_get float_timestamp.


(** X4: whatever [fetch] returns has one of four shapes, told by the
    status and the suffix: the single key [error_message] off a status
    other than 200, and off a status 200 the keys of the report of the
    suffix's level. *)
Theorem fetch_result_shapes (city suffix : string) (d : pydict) :
  fetch city suffix = Ok d ->
  exists resp,
    requests_get (weather_request api_key city) = Ok resp /\
    ((status_code resp <> 200%Z /\ Dict.keys d = ["error_message"])
     \/ (status_code resp = 200%Z /\
         Dict.keys d = report_keys (level_of_suffix suffix))).
Proof.
  intros H.
  destruct (fetch_inv _ _ _ _ _ _ H)
    as (resp & Hget & [[Hs ->]|(Hs & data & r & _ & _ & ->)]);
    exists resp; (split; [exact Hget|]).
  - left. now split.
  - right. split; [exact Hs | apply keys_report_of].
Qed.

(** X5: the detail levels succeed together and agree. If [fetch] returns
    for one suffix it returns for every other suffix on the same response,
    and a key that two of the results share has the same value in
    both. *)
Theorem fetch_levels_agree (city suffix1 suffix2 : string) (d1 : pydict) :
  fetch city suffix1 = Ok d1 ->
  exists d2,
    fetch city suffix2 = Ok d2 /\
    forall k v1 v2,
      Dict.get k d1 = Some v1 -> Dict.get k d2 = Some v2 -> v1 = v2.
Proof.
  intros H.
  destruct (fetch_inv _ _ _ _ _ _ H)
    as (resp & Hget & [[Hs ->]|(Hs & data & r & Hjson & Hreads & ->)]).
  - eexists. split.
    + now apply fetch_not_200 with (resp := resp).
    + intros k v1 v2 H1 H2. congruence.
  - exists (report_of (level_of_suffix suffix2) r). split.
    + now apply fetch_200_reads with (resp := resp) (data := data).
    + intros k v1 v2 H1 H2.
      apply report_of_in_full in H1, H2. congruence.
Qed.

(** X6: the city counts only through its lowercase form: the request
    and the error message are the same for a name and for the name
    lowercased. *)
Theorem fetch_case_insensitive (city suffix : string) :
  fetch city suffix = fetch (PyStr.lower city) suffix.
Proof.
  unfold fetch, fetch_weather_info, weather_request.
  now rewrite lower_idempotent.
Qed.

(** X7: an observation time outside the years 1 to 9999 (one written in
    milliseconds, say) makes [fetch] raise at every detail level, the
    levels that do not show the date too. *)
Theorem fetch_timestamp_out_of_range (city suffix : string) (resp : response)
        (data lat lon tz : pyval) (t : Z) :
  requests_get (weather_request api_key city) = Ok resp ->
  status_code resp = 200%Z ->
  json resp = Ok data ->
  field data [Key "coord"; Key "lat"] = Some lat ->
  field data [Key "coord"; Key "lon"] = Some lon ->
  field data [Key "timezone"] = Some tz ->
  field data [Key "dt"] = Some (PyInt t) ->
  (t < PyDatetime.MIN_TIMESTAMP \/ PyDatetime.MAX_TIMESTAMP < t)%Z ->
  fetch city suffix = Raise TimestampError.
Proof.
  intros Hget Hstatus Hjson Hlat Hlon Htz Hdt Hrange.
  apply field_key2 in Hlat as (coord & Hcoord & Hlat).
  apply field_key2 in Hlon as (coord' & Hcoord' & Hlon).
  apply field_key1 in Htz, Hdt.
  rewrite Hcoord in Hcoord'. injection Hcoord' as <-.
  assert (Hfrom : PyDatetime.fromtimestamp_utc t = Raise TimestampError).
  { unfold PyDatetime.fromtimestamp_utc.
    destruct (Z.leb_spec PyDatetime.MIN_TIMESTAMP t);
      destruct (Z.leb_spec t PyDatetime.MAX_TIMESTAMP); simpl;
      try reflexivity; lia. }
  unfold fetch, fetch_weather_info, format_timestamp.
  run Hget. rewrite Hstatus, Z.eqb_refl.
  run Hjson. repeat run Hcoord. run Hlat. run Hlon. run Htz. run Hdt.
  now run Hfrom.
Qed.

End FetchExtras.

(** ** The request handler: every way it returns *)

Section IndexExtras.

Variable api_key : string.
Variable float_timestamp : float -> pyresult Z.

(** Nothing [fetch] returns has the key the handler looks for. *)
Lemma fetch_no_error_key (requests_get : request -> pyresult response)
      (city suffix : string) (d : pydict) :
  fetch_weather_info api_key requests_get float_timestamp city suffix = Ok d ->
  Dict.mem "error" d = false.
Proof.
  intros H.
  destruct (fetch_inv _ _ _ _ _ _ H)
    as (resp & _ & [[_ ->]|(_ & data & r & _ & _ & ->)]);
    [reflexivity|].
  now destruct (level_of_suffix suffix).
Qed.

(** A POST is the fetch of the parsed input, rendered as it is: the
    handler's own lines on errors never run. *)
Lemma index_post_bind (requests_get : request -> pyresult response)
      (req : flask_request) (raw : string) :
  method req = "POST" ->
  Dict.get "city" (form req) = Some raw ->
  index api_key requests_get float_timestamp req =
  (d <- fetch_weather_info api_key requests_get float_timestamp
          (fst (split_suffix (PyStr.lower (PyStr.strip raw))))
          (snd (split_suffix (PyStr.lower (PyStr.strip raw)))) ;;
   Ok {| template := "index.html"; data := d; error := PyNone |}).
Proof.
  intros Hm Hform. unfold index, form_getitem.
  rewrite Hm, Hform. cbn [String.eqb Ascii.eqb Bool.eqb bind].
  destruct (split_suffix _) as [name suffix]. cbn [fst snd].
  destruct (fetch_weather_info _ _ _ name suffix) as [d|e] eqn:Hfetch;
    cbn [bind]; [|reflexivity].
  now rewrite (fetch_no_error_key _ _ _ _ Hfetch).
Qed.

(** X8: every page the handler renders. The template is [index.html] and
    the error passed to the view is [None], always; the data are empty on
    any method but POST, and on a POST they are what [fetch] returned for
    the name and suffix parsed off the stripped, lowercased field [city],
    untouched. *)
Theorem index_renders (requests_get : request -> pyresult response)
        (req : flask_request) (r : rendered) :
  index api_key requests_get float_timestamp req = Ok r ->
  template r = "index.html" /\
  error r = PyNone /\
  ((method req <> "POST" /\ data r = [])
   \/ (method req = "POST" /\
       exists raw,
         Dict.get "city" (form req) = Some raw /\
         fetch_weather_info api_key requests_get float_timestamp
           (fst (split_suffix (PyStr.lower (PyStr.strip raw))))
           (snd (split_suffix (PyStr.lower (PyStr.strip raw))))
         = Ok (data r))).
Proof.
  intros H.
  destruct (String.eqb_spec (method req) "POST") as [Hm|Hm].
  - destruct (Dict.get "city" (form req)) as [raw|] eqn:Hform.
    + rewrite (index_post_bind _ _ _ Hm Hform) in H.
      apply bind_inv in H as (d & Hfetch & H). injection H as <-.
      repeat split. right. split; [exact Hm|]. now exists raw.
    + unfold index, form_getitem in H. rewrite Hm, Hform in H. discriminate.
  - rewrite (index_not_post _ _ _ _ Hm) in H. injection H as <-.
    repeat split. left. now split.
Qed.

(** X9: a failure of the network is not turned into a message. When
    [requests.get] raises on the request for the parsed name, a POST raises
    the same exception and no page is rendered. *)
Theorem index_network_failure (requests_get : request -> pyresult response)
        (req : flask_request) (raw : string) (e : exn) :
  method req = "POST" ->
  Dict.get "city" (form req) = Some raw ->
  requests_get
    (weather_request api_key
       (fst (split_suffix (PyStr.lower (PyStr.strip raw))))) = Raise e ->
  index api_key requests_get float_timestamp req = Raise e.
Proof.
  intros Hm Hform Hget. rewrite (index_post_bind _ _ _ Hm Hform).
  unfold fetch_weather_info. now rewrite Hget.
Qed.

(** X10: the handler sees the field [city] only through its stripped,
    lowercased form: submitting that form itself gives the same
    outcome. *)
Theorem index_normalised_input (requests_get : request -> pyresult response)
        (req1 req2 : flask_request) (raw : string) :
  method req1 = method req2 ->
  Dict.get "city" (form req1) = Some raw ->
  Dict.get "city" (form req2) = Some (PyStr.lower (PyStr.strip raw)) ->
  index api_key requests_get float_timestamp req1
  = index api_key requests_get float_timestamp req2.
Proof.
  intros Hm H1 H2.
  destruct (String.eqb_spec (method req1) "POST") as [Hp|Hp].
  - rewrite (index_post_bind _ _ _ Hp H1).
    rewrite Hm in Hp. rewrite (index_post_bind _ _ _ Hp H2).
    now rewrite normalise_idempotent.
  - rewrite (index_not_post _ _ _ _ Hp).
    rewrite Hm in Hp. now rewrite (index_not_post _ _ _ _ Hp).
Qed.

(** X11: a POST asks the network one thing: the GET of the weather URL
    with [q] the parsed name (lowercased, without the suffix), the key and
    metric units. Two networks that answer this request alike give the
    same outcome. *)
Theorem index_one_request (get1 get2 : request -> pyresult response)
        (req : flask_request) (raw : string) :
  method req = "POST" ->
  Dict.get "city" (form req) = Some raw ->
  (let rq :=
     {| url := "https://api.openweathermap.org/data/2.5/weather";
        params := [("q", fst (split_suffix (PyStr.lower (PyStr.strip raw))));
                   ("appid", api_key); ("units", "metric")] |} in
   get1 rq = get2 rq) ->
  index api_key get1 float_timestamp req
  = index api_key get2 float_timestamp req.
Proof.
  intros Hm Hform Hget. cbv zeta in Hget.
  rewrite !(index_post_bind _ _ _ Hm Hform).
  unfold fetch_weather_info, weather_request.
  rewrite split_suffix_lower_name. now rewrite Hget.
Qed.


End IndexExtras.

(** ** The date string *)

Module DateExtras.

Import PyDatetime.
Local Open Scope Z_scope.

Lemma digit_inj (a b : Z) : digit a = digit b -> a mod 10 = b mod 10.
Proof.
  unfold digit. intros H.
  pose proof (Z.mod_pos_bound a 10 ltac:(reflexivity)) as Ha.
  pose proof (Z.mod_pos_bound b 10 ltac:(reflexivity)) as Hb.
  apply (f_equal nat_of_ascii) in H.
  rewrite !nat_ascii_embedding in H by lia. lia.
Qed.

Lemma pad2_inj (a b : Z) :
  0 <= a < 100 -> 0 <= b < 100 -> pad2 a = pad2 b -> a = b.
Proof.
  intros Ha Hb H. unfold pad2 in H. injection H as H1 H0.
  apply digit_inj in H1. apply digit_inj in H0.
  Z.div_mod_to_equations. lia.
Qed.

Lemma pad4_inj (a b : Z) :
  0 <= a < 10000 -> 0 <= b < 10000 -> pad4 a = pad4 b -> a = b.
Proof.
  intros Ha Hb H. unfold pad4, pad2 in H. injection H as H3 H2 H1 H0.
  apply digit_inj in H3. apply digit_inj in H2.
  apply digit_inj in H1. apply digit_inj in H0.
  Z.div_mod_to_equations. lia.
Qed.

(** The fields of a date of years 0 to 9999 can be read off its string. *)
Lemma strftime_inj (dt1 dt2 : datetime) :
  0 <= year dt1 < 10000 -> 0 <= year dt2 < 10000 ->
  0 <= month dt1 < 100 -> 0 <= month dt2 < 100 ->
  0 <= day dt1 < 100 -> 0 <= day dt2 < 100 ->
  0 <= hour dt1 < 100 -> 0 <= hour dt2 < 100 ->
  0 <= minute dt1 < 100 -> 0 <= minute dt2 < 100 ->
  0 <= second dt1 < 100 -> 0 <= second dt2 < 100 ->
  strftime dt1 = strftime dt2 -> dt1 = dt2.
Proof.
  destruct dt1 as [y1 m1 d1 h1 mi1 s1], dt2 as [y2 m2 d2 h2 mi2 s2].
  cbn [year month day hour minute second]. intros.
  match goal with H : strftime _ = strftime _ |- _ =>
    unfold strftime, pad4, pad2 in H;
    cbn [year month day hour minute second String.append] in H;
    injection H; clear H; intros
  end.
  assert (y1 = y2) by (apply pad4_inj; try assumption; unfold pad4, pad2; congruence).
  assert (m1 = m2) by (apply pad2_inj; try assumption; unfold pad2; congruence).
  assert (d1 = d2) by (apply pad2_inj; try assumption; unfold pad2; congruence).
  assert (h1 = h2) by (apply pad2_inj; try assumption; unfold pad2; congruence).
  assert (mi1 = mi2) by (apply pad2_inj; try assumption; unfold pad2; congruence).
  assert (s1 = s2) by (apply pad2_inj; try assumption; unfold pad2; congruence).
  congruence.
Qed.

End DateExtras.

Section DateClaims.

Import PyDatetime.
Local Open Scope Z_scope.

Variable float_timestamp : float -> pyresult Z.

Lemma days_in_month_le_31 (y m : Z) : 1 <= m <= 12 -> days_in_month y m <= 31.
Proof.
  intros Hm. unfold days_in_month.
  assert (M : m = 1 \/ m = 2 \/ m = 3 \/ m = 4 \/ m = 5 \/ m = 6 \/ m = 7
              \/ m = 8 \/ m = 9 \/ m = 10 \/ m = 11 \/ m = 12) by lia.
  decompose [or] M; subst m; destruct (is_leap y); vm_compute; discriminate.
Qed.

(** The broken-down time of an instant of years 1000 to 9999, with all
    that is known of it. *)
Lemma fromtimestamp_utc_fields (t : Z) :
  Y1000_TIMESTAMP <= t <= MAX_TIMESTAMP ->
  exists dt,
    fromtimestamp_utc t = Ok dt /\
    t = (ymd2ord (year dt) (month dt) (day dt) - EPOCH_ORDINAL) * 86400
        + hour dt * 3600 + minute dt * 60 + second dt /\
    1000 <= year dt <= 9999 /\
    1 <= month dt <= 12 /\
    1 <= day dt <= days_in_month (year dt) (month dt) /\
    0 <= hour dt < 24 /\ 0 <= minute dt < 60 /\ 0 <= second dt < 60.
Proof.
  intros Ht.
  destruct (fromtimestamp_utc_in_range t) as [dt Hdt].
  { unfold Y1000_TIMESTAMP, MIN_TIMESTAMP in *. lia. }
  exists dt. split; [exact Hdt|].
  pose proof (DateFacts.fromtimestamp_utc_year t dt (proj1 Ht) Hdt).
  pose proof (DateFacts.fromtimestamp_utc_sound t dt Hdt). tauto.
Qed.

(** X12: the date written is the date of the observation time. For an
    integer [dt] of years 1000 to 9999, line 42 gives the string
    [YYYY-MM-DD HH:MM:SS UTC] of a year, month, day, hour, minute and
    second that are a date of the Gregorian calendar and a time of the
    day, and that count, from 1970-01-01 00:00:00, exactly [dt]
    seconds. *)
Theorem format_timestamp_denotes (t : Z) :
  Y1000_TIMESTAMP <= t <= MAX_TIMESTAMP ->
  exists dt,
    format_timestamp float_timestamp (PyInt t) = Ok (strftime dt) /\
    t = (ymd2ord (year dt) (month dt) (day dt) - EPOCH_ORDINAL) * 86400
        + hour dt * 3600 + minute dt * 60 + second dt /\
    1000 <= year dt <= 9999 /\
    1 <= month dt <= 12 /\
    1 <= day dt <= days_in_month (year dt) (month dt) /\
    0 <= hour dt < 24 /\ 0 <= minute dt < 60 /\ 0 <= second dt < 60.
Proof.
  intros Ht.
  destruct (fromtimestamp_utc_fields t Ht) as (dt & Hdt & H).
  exists dt. split; [|exact H].
  unfold format_timestamp. cbn [bind]. now rewrite Hdt.
Qed.

(** X13: the date string tells the observation time to the second: two
    integer times of years 1000 to 9999 that are written the same are the
    same. *)
Theorem format_timestamp_injective (t1 t2 : Z) :
  Y1000_TIMESTAMP <= t1 <= MAX_TIMESTAMP ->
  Y1000_TIMESTAMP <= t2 <= MAX_TIMESTAMP ->
  format_timestamp float_timestamp (PyInt t1)
  = format_timestamp float_timestamp (PyInt t2) ->
  t1 = t2.
Proof.
  intros H1 H2 H.
  destruct (fromtimestamp_utc_fields t1 H1)
    as (dt1 & E1 & T1 & Y1 & M1 & D1 & Hh1 & Hm1 & Hs1).
  destruct (fromtimestamp_utc_fields t2 H2)
    as (dt2 & E2 & T2 & Y2 & M2 & D2 & Hh2 & Hm2 & Hs2).
  unfold format_timestamp in H. cbn [bind] in H.
  rewrite E1, E2 in H. cbn [bind] in H.
  remember (strftime dt1) as s1 eqn:S1. remember (strftime dt2) as s2 eqn:S2.
  injection H as H. subst s1 s2.
  pose proof (days_in_month_le_31 (year dt1) _ M1).
  pose proof (days_in_month_le_31 (year dt2) _ M2).
  apply DateExtras.strftime_inj in H; try lia.
  rewrite T1, T2, H. reflexivity.
Qed.

End DateClaims.

(** ** Witnesses of the further properties *)

Lemma london_reads : reads no_float_timestamp london_data london_readings.
Proof.
  unfold reads. repeat split; try reflexivity.
  exists (PyInt 1700000000). split; reflexivity.
Defined.

Lemma split_suffix_name_no_trailing_plus_witness : ~ ends_with "paris" "+".
Proof.
  apply (split_suffix_name_no_trailing_plus "paris+" "paris" "+").
  - reflexivity.
  - discriminate.
Defined.


Lemma fetch_result_shapes_witness :
  exists resp,
    example_provider (weather_request "k" "London") = Ok resp /\
    ((status_code resp <> 200%Z /\
      Dict.keys (report_of PARTIAL london_readings) = ["error_message"])
     \/ (status_code resp = 200%Z /\
         Dict.keys (report_of PARTIAL london_readings)
         = report_keys (level_of_suffix "+"))).
Proof.
  apply (fetch_result_shapes "k" example_provider no_float_timestamp
           "London" "+" (report_of PARTIAL london_readings)).
  reflexivity.
Defined.

Lemma fetch_levels_agree_witness :
  exists d2,
    fetch_weather_info "k" example_provider no_float_timestamp "London" "++"
    = Ok d2 /\
    forall k v1 v2,
      Dict.get k (report_of NONE london_readings) = Some v1 ->
      Dict.get k d2 = Some v2 -> v1 = v2.
Proof.
  apply (fetch_levels_agree "k" example_provider no_float_timestamp
           "London" "" "++" (report_of NONE london_readings)).
  reflexivity.
Defined.

Lemma fetch_timestamp_out_of_range_witness :
  fetch_weather_info "k" millis_provider no_float_timestamp "London" ""
  = Raise TimestampError.
Proof.
  apply (fetch_timestamp_out_of_range "k" millis_provider no_float_timestamp
           "London" "" {| status_code := 200; json := Ok millis_data |}
           millis_data (obs_lat london_observation)
           (obs_lon london_observation) (PyInt 0) 1700000000000).
  - reflexivity.
  - reflexivity.
  - reflexivity.
  - reflexivity.
  - reflexivity.
  - reflexivity.
  - reflexivity.
  - right. unfold PyDatetime.MAX_TIMESTAMP. lia.
Defined.

Lemma index_renders_witness :
  "index.html" = "index.html" /\
  PyNone = PyNone /\
  (("POST" <> "POST" /\
    [("error_message", PyStr "No weather info for atlantis")] = [])
   \/ ("POST" = "POST" /\
       exists raw,
         Dict.get "city" [("city", "Atlantis")] = Some raw /\
         fetch_weather_info "k" example_provider no_float_timestamp
           (fst (split_suffix (PyStr.lower (PyStr.strip raw))))
           (snd (split_suffix (PyStr.lower (PyStr.strip raw))))
         = Ok [("error_message", PyStr "No weather info for atlantis")])).
Proof.
  apply (index_renders "k" no_float_timestamp example_provider
           {| method := "POST"; form := [("city", "Atlantis")] |}
           {| template := "index.html";
              data := [("error_message", PyStr "No weather info for atlantis")];
              error := PyNone |}).
  reflexivity.
Defined.

Lemma index_network_failure_witness :
  index "k" no_network no_float_timestamp
        {| method := "POST"; form := [("city", "London")] |}
  = Raise RequestException.
Proof.
  apply (index_network_failure "k" no_float_timestamp no_network
           {| method := "POST"; form := [("city", "London")] |} "London").
  - reflexivity.
  - reflexivity.
  - reflexivity.
Defined.

Lemma index_normalised_input_witness :
  index "k" example_provider no_float_timestamp
        {| method := "POST"; form := [("city", " London++ ")] |}
  = index "k" example_provider no_float_timestamp
          {| method := "POST"; form := [("city", "london++")] |}.
Proof.
  apply (index_normalised_input "k" no_float_timestamp example_provider
           {| method := "POST"; form := [("city", " London++ ")] |}
           {| method := "POST"; form := [("city", "london++")] |}
           " London++ ").
  - reflexivity.
  - reflexivity.
  - reflexivity.
Defined.

Lemma index_one_request_witness :
  index "k" example_provider no_float_timestamp
        {| method := "POST"; form := [("city", "London+")] |}
  = index "k" london_provider no_float_timestamp
          {| method := "POST"; form := [("city", "London+")] |}.
Proof.
  apply (index_one_request "k" no_float_timestamp example_provider
           london_provider
           {| method := "POST"; form := [("city", "London+")] |} "London+").
  - reflexivity.
  - reflexivity.
  - reflexivity.
Defined.

Lemma format_timestamp_denotes_witness :
  exists dt,
    format_timestamp no_float_timestamp (PyInt 1700000000)
    = Ok (PyDatetime.strftime dt) /\
    (1700000000
     = (PyDatetime.ymd2ord (PyDatetime.year dt) (PyDatetime.month dt)
          (PyDatetime.day dt) - PyDatetime.EPOCH_ORDINAL) * 86400
       + PyDatetime.hour dt * 3600 + PyDatetime.minute dt * 60
       + PyDatetime.second dt /\
     1000 <= PyDatetime.year dt <= 9999 /\
     1 <= PyDatetime.month dt <= 12 /\
     1 <= PyDatetime.day dt
       <= PyDatetime.days_in_month (PyDatetime.year dt) (PyDatetime.month dt) /\
     0 <= PyDatetime.hour dt < 24 /\ 0 <= PyDatetime.minute dt < 60 /\
     0 <= PyDatetime.second dt < 60)%Z.
Proof.
  apply (format_timestamp_denotes no_float_timestamp 1700000000).
  unfold Y1000_TIMESTAMP, PyDatetime.MAX_TIMESTAMP. lia.
Defined.

Lemma format_timestamp_injective_witness : 1700000000%Z = 1700000000%Z.
Proof.
  apply (format_timestamp_injective no_float_timestamp 1700000000 1700000000).
  - unfold Y1000_TIMESTAMP, PyDatetime.MAX_TIMESTAMP. lia.
  - unfold Y1000_TIMESTAMP, PyDatetime.MAX_TIMESTAMP. lia.
  - reflexivity.
Defined.
